(** * Excitation optimiser for a five-element antenna array

    A shallow embedding of [array_optimizer.py]: the oracle adapter
    [evalAntenna], the objective closure [error_function] and the driver
    [optimize_antenna_array].

    Conventions of the embedding.
    - Python floats are read as real numbers ([R]); [1e-3] is [/ 1000].
    - Python lists of floats and numpy arrays live in a store.  Slicing a
      list copies it into a fresh list; slicing an array yields a view
      of the same buffer.
    - The solver session ([hfss], [setup]) is a pair of records whose
      fields answer from the variable assignments made so far.
    - [time.time], [time.sleep] and the [print]s of [evalAntenna] and of
      the callback have no counterpart.
    - The set-up code runs on a host: a process table, a map from paths
      to files, a console and a count of open desktops ([Module Host]). *)

From Stdlib Require Import Reals Lra Lia.
From stdpp Require Import base list strings pretty gmap.

(** ** Outcomes *)

Inductive exn : Type :=
  | IndexError
  | ValueError
  | TypeError
  | SolverError (what : string)
  | NanResult.

Inductive Res (A : Type) : Type :=
  | Ret (a : A)
  | Raise (e : exn).

Arguments Ret {A} a.
Arguments Raise {A} e.

(** ** The store *)

Record world : Type := World {
  lists : list (list R);
  arrays : list (list R);
  variables : list (string * string)
}.

(** A sequence of floats as Python sees it: a list object, or an array
    window [start, start + len) over a buffer. *)
Inductive pyseq : Type :=
  | PyList (l : nat)
  | NdArray (l : nat) (start len : nat).

Definition M (A : Type) : Type := world -> Res A * world.

Definition ret {A} (a : A) : M A := fun w => (Ret a, w).

Definition bind {A B} (m : M A) (k : A -> M B) : M B :=
  fun w => match m w with
           | (Ret a, w') => k a w'
           | (Raise e, w') => (Raise e, w')
           end.

Definition raise {A} (e : exn) : M A := fun w => (Raise e, w).

Definition lift {A} (r : Res A) : M A := fun w => (r, w).

(** [try: m except: h] with a bare [except]. *)
Definition try_except {A} (m : M A) (h : M A) : M A :=
  fun w => match m w with
           | (Ret a, w') => (Ret a, w')
           | (Raise _, w') => h w'
           end.

Declare Scope py_scope.
Delimit Scope py_scope with py.
Notation "x <- m ;; k" := (bind m (fun x => k))
  (at level 100, m at next level, right associativity) : py_scope.
Notation "m ;; k" := (bind m (fun _ => k))
  (at level 100, right associativity) : py_scope.
Open Scope py_scope.

Fixpoint for_each {A} (l : list A) (body : A -> M unit) : M unit :=
  match l with
  | [] => ret tt
  | x :: rest => body x ;; for_each rest body
  end.

(** [for i in range(n): body] *)
Definition for_range (n : nat) (body : nat -> M unit) : M unit :=
  for_each (seq 0 n) body.

(** ** Sequences in the store *)

Definition set_lists (ls : list (list R)) (w : world) : world :=
  World ls (arrays w) (variables w).

Definition set_arrays (bs : list (list R)) (w : world) : world :=
  World (lists w) bs (variables w).

Definition new_list (v : list R) : M nat :=
  fun w => (Ret (length (lists w)), set_lists (lists w ++ [v]) w).

Definition new_array (v : list R) : M pyseq :=
  fun w => (Ret (NdArray (length (arrays w)) 0 (length v)),
            set_arrays (arrays w ++ [v]) w).

(** What a reference shows of the store. *)
Definition contents (w : world) (s : pyseq) : option (list R) :=
  match s with
  | PyList l => lists w !! l
  | NdArray l start len =>
      match arrays w !! l with
      | Some b => if decide (start + len <= length b)
                  then Some (take len (drop start b)) else None
      | None => None
      end
  end.

(** [s[lo:hi]] for non-negative bounds; [hi = None] is [s[lo:]]. *)
Definition slice (s : pyseq) (lo : nat) (hi : option nat) : M pyseq :=
  match s with
  | PyList l => fun w =>
      match lists w !! l with
      | Some v =>
          let stop := match hi with Some h => h | None => length v end in
          (Ret (PyList (length (lists w))),
           set_lists (lists w ++ [take (stop - lo) (drop lo v)]) w)
      | None => (Raise TypeError, w)
      end
  | NdArray l start len =>
      let lo' := lo `min` len in
      let hi' := match hi with Some h => h `min` len | None => len end in
      ret (NdArray l (start + lo') (hi' - lo'))
  end.

(** [s[i]] for [0 <= i] *)
Definition getitem (s : pyseq) (i : nat) : M R :=
  fun w =>
    match s with
    | PyList l =>
        match lists w !! l with
        | Some v => match v !! i with
                    | Some x => (Ret x, w)
                    | None => (Raise IndexError, w)
                    end
        | None => (Raise TypeError, w)
        end
    | NdArray l start len =>
        match arrays w !! l with
        | Some b => if decide (i < len)
                    then match b !! (start + i) with
                         | Some x => (Ret x, w)
                         | None => (Raise IndexError, w)
                         end
                    else (Raise IndexError, w)
        | None => (Raise TypeError, w)
        end
    end.

(** [s[i] = x] for [0 <= i] *)
Definition setitem (s : pyseq) (i : nat) (x : R) : M unit :=
  fun w =>
    match s with
    | PyList l =>
        match lists w !! l with
        | Some v => if decide (i < length v)
                    then (Ret tt, set_lists (<[l := <[i := x]> v]> (lists w)) w)
                    else (Raise IndexError, w)
        | None => (Raise TypeError, w)
        end
    | NdArray l start len =>
        match arrays w !! l with
        | Some b => if decide (i < len /\ start + i < length b)
                    then (Ret tt,
                          set_arrays (<[l := <[start + i := x]> b]> (arrays w)) w)
                    else (Raise IndexError, w)
        | None => (Raise TypeError, w)
        end
    end.

(** [l.append(x)] on a list object *)
Definition append (l : nat) (x : R) : M unit :=
  fun w =>
    match lists w !! l with
    | Some v => (Ret tt, set_lists (<[l := v ++ [x]]> (lists w)) w)
    | None => (Raise TypeError, w)
    end.

(** ** numpy on one-dimensional float arrays *)

Definition np_zeros (n : nat) : list R := replicate n 0%R.

Definition np_abs (v : list R) : list R := Rabs <$> v.

(** [np.max] raises on an empty array. *)
Definition np_max (v : list R) : Res R :=
  match v with
  | [] => Raise ValueError
  | x :: rest => Ret (foldl Rmax x rest)
  end.

(** [a - b] with numpy's broadcasting rule for shapes [(n,)] and [(m,)]:
    equal lengths subtract element-wise, a length-one operand is
    stretched, anything else raises. *)
Definition np_sub (a b : list R) : Res (list R) :=
  if decide (length a = length b) then Ret (zip_with Rminus a b)
  else match a, b with
       | [x], _ => Ret ((fun y => x - y)%R <$> b)
       | _, [y] => Ret ((fun x => x - y)%R <$> a)
       | _, _ => Raise ValueError
       end.

Definition sum_squares (v : list R) : R :=
  foldr (fun x acc => x * x + acc)%R 0%R v.

(** [np.linalg.norm] of a one-dimensional array: the 2-norm. *)
Definition np_linalg_norm (v : list R) : R := sqrt (sum_squares v).

(** ** The solver session *)

(** The object [get_solution_data] hands back; [data_magnitude] either
    yields the gain curve or raises (as it does on the [False] that the
    query returns when no data exist). *)
Record SolutionData : Type := { data_magnitude : Res (list R) }.

Record Hfss : Type := {
  get_solution_data : list (string * string) -> Res SolutionData
}.

Record Setup : Type := {
  analyze : list (string * string) -> Res unit
}.

(** [hfss.odesign.SetVariableValue(name, value)] *)
Definition SetVariableValue (name value : string) : M unit :=
  fun w => (Ret tt, World (lists w) (arrays w) (variables w ++ [(name, value)])).

Definition run_analyze (setup : Setup) : M unit :=
  fun w => (analyze setup (variables w), w).

Definition run_get_solution_data (hfss : Hfss) : M SolutionData :=
  fun w => (get_solution_data hfss (variables w), w).

(** The amplitude floor [1e-3]. *)
Definition floor_eps : R := (/ 1000)%R.

(** Stand-ins used to run the program on concrete inputs: a session
    that always answers [r], a setup whose solve goes through, a
    formatter, and a minimiser that evaluates the start point once,
    reports it and returns it. *)
Definition hfss_answering (r : Res (list R)) : Hfss :=
  {| get_solution_data := fun _ => Ret {| data_magnitude := r |} |}.

Definition setup_ok : Setup := {| analyze := fun _ => Ret tt |}.

Definition format_plain : R -> string := fun _ => "0.000".

Definition minimize_once (f : pyseq -> M R) (x0 : pyseq) (maxiter : nat)
    (callback : pyseq -> M unit) : M pyseq :=
  _ <- f x0 ;;
  callback x0 ;;
  ret x0.

(** A store with an empty trace list and one array: an Excitation Vector
    whose first amplitude lies below the floor. *)
Definition small_amp_vector : list R :=
  [0; 0; 0; 0; 0; 0.0005; 1; 1; 1; 1]%R.

Definition store_small_amp : world := World [[]] [small_amp_vector] [].

Definition x_small_amp : pyseq := NdArray 0 0 10.

Definition twelve_samples : list R := replicate 12 1%R.

Definition ten_samples : list R := replicate 10 1%R.

Definition no_data : SolutionData :=
  {| data_magnitude := Raise (SolverError "no far field") |}.

(** ** The host: processes, lock file, desktop *)

(** [np.linspace(start, stop, num)] *)
Definition np_linspace (start stop : R) (num : nat) : list R :=
  (fun k => start + INR k * ((stop - start) / INR (num - 1)))%R <$> seq 0 num.

(** [np.concatenate(parts)]: a fresh array holding the parts end to end. *)
Definition np_concatenate (parts : list pyseq) : M pyseq :=
  fun w =>
    match mapM (contents w) parts with
    | Some vs => new_array (concat vs) w
    | None => (Raise TypeError, w)
    end.

Module Host.

(** What [proc.kill()] does to a process. *)
Inductive kill_outcome : Type :=
  | Dies
  | NoSuchProcess
  | AccessDenied
  | ZombieProcess.

(** An entry of [psutil.process_iter(['pid', 'name'])]; the name is
    [None] when it could not be read. *)
Record process : Type := Process {
  pid : nat;
  name : option string;
  on_kill : kill_outcome
}.

(** What [os.remove] does to a path: it goes, or [PermissionError], or
    another exception whose [str] is [what]. *)
Inductive remove_outcome : Type :=
  | Removable
  | Denied
  | Failing (what : string).

Inductive failure : Type :=
  | AttributeError
  | FileNotFoundError (msg : string)
  | PermissionError (msg : string)
  | Exception (msg : string)
  | ValueError (msg : string)
  | LaunchError (what : string)
  | Core (e : exn).

Inductive result (A : Type) : Type :=
  | Ok (a : A)
  | Err (e : failure).

Arguments Ok {A} a.
Arguments Err {A} e.

(** The object [Hfss(...)] constructs. *)
Record Desktop : Type := {
  design_name : string;
  session : Hfss;
  get_setup : string -> Setup
}.

(** What the machine offers: its process table and what
    [Hfss(projectname, design, ...)] does, a desktop or a raise. *)
Record machine : Type := {
  processes : list process;
  launch : string -> string -> Desktop + string
}.

Record state : Type := State {
  files : gmap string remove_outcome;
  console : list string;
  killed_pids : list nat;
  open_desktops : nat
}.

Definition H (A : Type) : Type := state -> result A * state.

Definition ret {A} (a : A) : H A := fun s => (Ok a, s).

Definition bind {A B} (m : H A) (k : A -> H B) : H B :=
  fun s => match m s with
           | (Ok a, s') => k a s'
           | (Err e, s') => (Err e, s')
           end.

Definition raise {A} (e : failure) : H A := fun s => (Err e, s).

Declare Scope host_scope.
Notation "x <- m ;; k" := (bind m (fun x => k))
  (at level 100, m at next level, right associativity) : host_scope.
Notation "m ;; k" := (bind m (fun _ => k))
  (at level 100, right associativity) : host_scope.
Local Open Scope host_scope.

Definition print (line : string) : H unit :=
  fun s => (Ok tt, State (files s) (console s ++ [line]) (killed_pids s)
                         (open_desktops s)).

(** [str.lower] on ASCII text. *)
Definition lower_ascii (c : Ascii.ascii) : Ascii.ascii :=
  let n := Ascii.nat_of_ascii c in
  if (65 <=? n) && (n <=? 90) then Ascii.ascii_of_nat (n + 32) else c.

Fixpoint lower (s : string) : string :=
  match s with
  | EmptyString => EmptyString
  | String c rest => String (lower_ascii c) (lower rest)
  end.

(** [needle in hay] on strings. *)
Fixpoint contains (needle hay : string) : bool :=
  String.prefix needle hay ||
  match hay with
  | EmptyString => false
  | String _ rest => contains needle rest
  end.

Definition aedt_process_names : list string :=
  ["ansysedt.exe"; "ansysedtsv.exe"; "AnsysEMsv.exe"].

(** [any(aedt_name.lower() in proc_name for aedt_name in ...)] *)
Definition any_aedt_name (proc_name : string) : bool :=
  existsb (fun aedt_name => contains (lower aedt_name) proc_name)
          aedt_process_names.

Definition kill (proc : process) : H unit :=
  fun s => (Ok tt, State (files s) (console s) (killed_pids s ++ [pid proc])
                         (open_desktops s)).

(** The loop of [kill_aedt_processes], with its flag [killed]. *)
Fixpoint kill_each (procs : list process) (killed : bool) : H bool :=
  match procs with
  | [] => ret killed
  | proc :: rest =>
      match name proc with
      | None => raise AttributeError
      | Some n =>
          let proc_name := lower n in
          if any_aedt_name proc_name then
            match on_kill proc with
            | Dies =>
                kill proc ;;
                print ("Killed process: " +:+ n +:+ " (PID: "
                       +:+ pretty (pid proc) +:+ ")") ;;
                kill_each rest true
            | _ => kill_each rest killed
            end
          else kill_each rest killed
      end
  end.

Definition kill_aedt_processes (m : machine) : H unit :=
  killed <- kill_each (processes m) false ;;
  if negb killed then print "Starting AEDT processes." else ret tt.

(** [os.path.exists(path)] *)
Definition os_path_exists (path : string) : H bool :=
  fun s => (Ok (bool_decide (is_Some (files s !! path))), s).

(** [os.remove(path)] *)
Definition os_remove (path : string) : H unit :=
  fun s =>
    match files s !! path with
    | Some Removable =>
        (Ok tt, State (delete path (files s)) (console s)
                      (killed_pids s) (open_desktops s))
    | Some Denied => (Err (PermissionError ""), s)
    | Some (Failing what) => (Err (Exception what), s)
    | None =>
        (Err (FileNotFoundError ("[Errno 2] No such file or directory: '"
                                 +:+ path +:+ "'")), s)
    end.

(** [str(e)] of what [os.remove] raised. *)
Definition str_of (e : failure) : string :=
  match e with
  | FileNotFoundError msg | PermissionError msg | Exception msg
  | ValueError msg => msg
  | LaunchError what => what
  | AttributeError | Core _ => ""
  end.

(** The [try: os.remove ... except PermissionError ... except Exception]
    of [initHFSSsetup]. *)
Definition remove_lock (lock_file : string) : H unit :=
  fun s =>
    match (os_remove lock_file ;;
           print ("Removed lock file: " +:+ lock_file)) s with
    | (Ok _, s') => (Ok tt, s')
    | (Err (PermissionError _), s') =>
        (Err (PermissionError
                ("Cannot remove lock file '" +:+ lock_file
                 +:+ "'. Close AEDT or check file permissions.")), s')
    | (Err e, s') =>
        (Err (Exception ("Failed to remove lock file '" +:+ lock_file
                         +:+ "': " +:+ str_of e)), s')
    end.

Definition start_desktop (m : machine) (project design : string) : H Desktop :=
  fun s =>
    match launch m project design with
    | inl d => (Ok d, State (files s) (console s) (killed_pids s)
                            (S (open_desktops s)))
    | inr what => (Err (LaunchError what), s)
    end.

(** [hfss.release_desktop()] *)
Definition release_desktop : H unit :=
  fun s => (Ok tt, State (files s) (console s) (killed_pids s)
                         (pred (open_desktops s))).

Definition lock_file_path : string :=
  "aedt\1D_Dipole_array_model_all.aedt" +:+ ".lock".

Definition initHFSSsetup (m : machine) : H (Hfss * Setup) :=
  let project_path := "aedt\1D_Dipole_array_model_all.aedt" in
  let project_name := "1D_Dipole_array_model_all" in
  let design_name' := "arrayY5" in
  let setup_name := "Setup1" in
  kill_aedt_processes m ;;
  let lock_file := project_path +:+ ".lock" in
  there <- os_path_exists lock_file ;;
  (if there : bool then remove_lock lock_file else ret tt) ;;
  hfss <- start_desktop m project_path design_name' ;;
  if decide (design_name hfss = design_name') then
    print ("Activated project: " +:+ project_name +:+ ", design: "
           +:+ design_name') ;;
    let setup := get_setup hfss setup_name in
    ret (session hfss, setup)
  else
    raise (ValueError ("Design '" +:+ design_name' +:+ "' not found in project '"
                       +:+ project_name +:+ "'.")).

End Host.

(** Machines and stores to run the set-up and the script on. *)
Definition desktop_named (design : string) : Host.Desktop :=
  {| Host.design_name := design;
     Host.session := hfss_answering (Ret ten_samples);
     Host.get_setup := fun _ => setup_ok |}.

Definition process_table : list Host.process :=
  [Host.Process 11 (Some "ANSYSEDT.EXE") Host.Dies;
   Host.Process 12 (Some "python.exe") Host.Dies;
   Host.Process 13 (Some "ansysedtsv.exe") Host.AccessDenied].

Definition process_table_unreadable : list Host.process :=
  [Host.Process 11 (Some "AnsysEDT.exe") Host.Dies;
   Host.Process 12 None Host.Dies;
   Host.Process 13 (Some "ansysedt.exe") Host.Dies].

Definition machine_with (procs : list Host.process) (design : string)
    : Host.machine :=
  {| Host.processes := procs;
     Host.launch := fun _ _ => inl (desktop_named design) |}.

Definition host_clean : Host.state := Host.State ∅ [] [] 0.

Definition host_locked (o : Host.remove_outcome) : Host.state :=
  Host.State {[ Host.lock_file_path := o ]} [] [] 0.

Definition setup_failing : Setup :=
  {| analyze := fun _ => Raise (SolverError "solve failed") |}.

Definition short_vector : list R := [0; 0; 0; 0; 0; 1; 1]%R.

Definition store_short : world := World [[]] [short_vector] [].

Definition long_vector : list R :=
  [0; 0; 0; 0; 0; 1; 1; 1; 1; 1; 7; 7]%R.

Definition store_long : world := World [[]] [long_vector] [].

Definition store_list : world := World [small_amp_vector; []] [] [].

(** A minimiser that returns its start point at once. *)
Definition minimize_none (f : pyseq -> M R) (x0 : pyseq) (maxiter : nat)
    (callback : pyseq -> M unit) : M pyseq :=
  ret x0.

Section Optimizer.

(** Python's [f'{x:0.3f}']. *)
Variable format_3f : R -> string.

(** [scipy.optimize.minimize(fun, x0, options={'maxiter': maxiter},
    tol=1e-2, bounds=None, method='Nelder-Mead', callback=cb)],
    yielding [result.x]. *)
Variable minimize :
  (pyseq -> M R) -> pyseq -> nat -> (pyseq -> M unit) -> M pyseq.

Definition evalAntenna (hfss : Hfss) (setup : Setup) (N_samples : nat)
    (phases_amps : pyseq) (err_vect : option nat)
    (target_pattern : option (list R)) : M (list R) :=
  let N := 5 in
  phases <- slice phases_amps 0 (Some N) ;;
  amps <- slice phases_amps N None ;;
  for_range N (fun i =>
    a <- getitem amps i ;;
    (if Rlt_dec (Rabs a) floor_eps then setitem amps i floor_eps
     else ret tt) ;;
    p <- getitem phases i ;;
    SetVariableValue ("Phase" +:+ pretty i) (format_3f p +:+ "rad") ;;
    a' <- getitem amps i ;;
    SetVariableValue ("Amp" +:+ pretty i) (format_3f a' +:+ "V")) ;;
  run_analyze setup ;;
  far_field_data <- run_get_solution_data hfss ;;
  gain_data <- try_except (lift (data_magnitude far_field_data))
                          (ret (np_zeros N_samples)) ;;
  match err_vect, target_pattern with
  | Some ev, Some tp =>
      d <- lift (np_sub gain_data tp) ;;
      let errval := np_linalg_norm d in
      append ev errval
  | _, _ => ret tt
  end ;;
  ret gain_data.

(** [np.abs(t) / np.max(np.abs(t))].  On an all-zero pattern numpy
    yields nan in every position and carries on; nan has no
    counterpart in [R], and the model stops there with [NanResult]. *)
Definition normalize_target (t : list R) : Res (list R) :=
  match np_max (np_abs t) with
  | Raise e => Raise e
  | Ret m => if Req_dec_T m 0 then Raise NanResult
             else Ret ((fun x => x / m)%R <$> np_abs t)
  end.

Definition af_opt_amps_v : list R :=
  [0.13804396; -0.24838753; 0.29000823; -0.25574068; 0.14721397]%R.

Definition af_opt_phases_deg : list R :=
  [0.50859738; 0.33066983; 0.17692615; 0.48328732; -0.22207866]%R.

(** The closure [error_function] of [optimize_antenna_array]. *)
Definition error_function (hfss : Hfss) (setup : Setup) (Nsamples : nat)
    (err_vect : nat) (target_pattern : list R) (x : pyseq) : M R :=
  gain_data <- evalAntenna hfss setup Nsamples x (Some err_vect)
                           (Some target_pattern) ;;
  d <- lift (np_sub gain_data target_pattern) ;;
  ret (np_linalg_norm d).

(** The closure [itter_callback]: it slices and prints. *)
Definition itter_callback (array_size : nat) (x : pyseq) : M unit :=
  _ <- slice x 0 (Some array_size) ;;
  _ <- slice x array_size None ;;
  ret tt.

Definition optimize_antenna_array (hfss : Hfss) (setup : Setup)
    (target_pattern : list R) (maxiter : nat) : M (pyseq * pyseq * nat) :=
  target_pattern <- lift (normalize_target target_pattern) ;;
  let array_size := 5 in
  let amplitudes := af_opt_amps_v in
  let phases := af_opt_phases_deg in
  err_vect <- new_list [] ;;
  let Nsamples := length target_pattern in
  x0 <- new_array (phases ++ amplitudes) ;;
  result_x <- minimize (error_function hfss setup Nsamples err_vect
                                       target_pattern)
                       x0 maxiter (itter_callback array_size) ;;
  optimized_amplitudes <- slice result_x 0 (Some array_size) ;;
  optimized_phases <- slice result_x array_size None ;;
  ret (optimized_amplitudes, optimized_phases, err_vect).

(** [np.where((phivals >= -45) & (phivals <= 45), 2.0, 0.0)] *)
Definition band_target (phivals : list R) : list R :=
  (fun phi => if Rle_dec (-45) phi
              then if Rle_dec phi 45 then 2 else 0
              else 0)%R <$> phivals.

(** The script under [if __name__ == "__main__"], up to the plots: it
    yields [optimized_gain] and the trace. *)
Definition main (m : Host.machine) (h : Host.state) (w : world)
    : Host.result (list R * nat) * Host.state * world :=
  let Nsamples := 37 in
  let phivals := np_linspace (-90) 90 Nsamples in
  let target_pattern := band_target phivals in
  match Host.initHFSSsetup m h with
  | (Host.Err e, h1) => (Host.Err e, h1, w)
  | (Host.Ok (hfss, setup), h1) =>
      match optimize_antenna_array hfss setup target_pattern 100 w with
      | (Raise e, w1) => (Host.Err (Host.Core e), h1, w1)
      | (Ret (optimized_amplitudes, optimized_phases, err_vect), w1) =>
          match (x <- np_concatenate [optimized_phases; optimized_amplitudes] ;;
                 evalAntenna hfss setup Nsamples x None None) w1 with
          | (Raise e, w2) => (Host.Err (Host.Core e), h1, w2)
          | (Ret optimized_gain, w2) =>
              (Host.Ok (optimized_gain, err_vect),
               (Host.release_desktop h1).2, w2)
          end
      end
  end.

(** ** Vocabulary of the statements *)

(** A process the kill loop aims at: its name is readable and, in lower
    case, contains one of the three executable names. *)
Definition targeted (p : Host.process) : bool :=
  match Host.name p with
  | Some n => Host.any_aedt_name (Host.lower n)
  | None => false
  end.

(** A targeted process whose [kill] goes through. *)
Definition struck (p : Host.process) : bool :=
  targeted p && match Host.on_kill p with Host.Dies => true | _ => false end.

Definition readable (p : Host.process) : Prop := is_Some (Host.name p).

(** The floor test of the excitation loop, as a function. *)
Definition clamp (a : R) : R :=
  if Rlt_dec (Rabs a) floor_eps then floor_eps else a.

(** The two assignments the loop issues for element [i]. *)
Definition element_commands (i : nat) (p q : R) : list (string * string) :=
  [("Phase" +:+ pretty i, format_3f p +:+ "rad");
   ("Amp" +:+ pretty i, format_3f q +:+ "V")].

Definition excitation_commands (ps qs : list R) : list (string * string) :=
  concat (imap (fun i pq => element_commands i pq.1 pq.2) (zip ps qs)).

(** A ten-entry vector with its amplitude half floored. *)
Definition floored (v : list R) : list R :=
  take 5 v ++ (clamp <$> drop 5 v).

(** The store once the excitation loop has run on the vector [v]
    seen through [x]. *)
Definition excited (w : world) (x : pyseq) (v : list R) : world :=
  let vars :=
    variables w ++ excitation_commands (take 5 v) (clamp <$> drop 5 v) in
  match x with
  | PyList _ =>
      World (lists w ++ [take 5 v; clamp <$> drop 5 v]) (arrays w) vars
  | NdArray l start _ =>
      match arrays w !! l with
      | Some b =>
          World (lists w)
                (<[l := take start b ++ floored v ++ drop (start + 10) b]>
                   (arrays w))
                vars
      | None => World (lists w) (arrays w) vars
      end
  end.

(** The body of the excitation loop of [evalAntenna]. *)
Definition excite_element (phases amps : pyseq) (i : nat) : M unit :=
  a <- getitem amps i ;;
  (if Rlt_dec (Rabs a) floor_eps then setitem amps i floor_eps
   else ret tt) ;;
  p <- getitem phases i ;;
  SetVariableValue ("Phase" +:+ pretty i) (format_3f p +:+ "rad") ;;
  a' <- getitem amps i ;;
  SetVariableValue ("Amp" +:+ pretty i) (format_3f a' +:+ "V").

(** What [evalAntenna] does after the excitation loop. *)
Definition solve_and_score (hfss : Hfss) (setup : Setup) (N_samples : nat)
    (err_vect : option nat) (target_pattern : option (list R))
    : M (list R) :=
  run_analyze setup ;;
  far_field_data <- run_get_solution_data hfss ;;
  gain_data <- try_except (lift (data_magnitude far_field_data))
                          (ret (np_zeros N_samples)) ;;
  match err_vect, target_pattern with
  | Some ev, Some tp =>
      d <- lift (np_sub gain_data tp) ;;
      let errval := np_linalg_norm d in
      append ev errval
  | _, _ => ret tt
  end ;;
  ret gain_data.

(** An Excitation Vector: ten entries behind a live reference. *)
Definition excitation (w : world) (x : pyseq) (v : list R) : Prop :=
  contents w x = Some v /\ length v = 10.

(** The pattern [evalAntenna] ends up with: the oracle's curve, or the
    zero pattern when [data_magnitude] raises. *)
Definition observed (N_samples : nat) (sd : SolutionData) : list R :=
  match data_magnitude sd with
  | Ret d => d
  | Raise _ => np_zeros N_samples
  end.

(** For the assignments this evaluation makes, the solve goes through
    and the far-field query hands back [sd]. *)
Definition answers (hfss : Hfss) (setup : Setup) (w : world) (x : pyseq)
    (v : list R) (sd : SolutionData) : Prop :=
  analyze setup (variables (excited w x v)) = Ret tt /\
  get_solution_data hfss (variables (excited w x v)) = Ret sd.

(** A reference the objective may be called on: an Excitation Vector
    that is not the trace list itself. *)
Definition candidate (w : world) (err_vect : nat) (x : pyseq) : Prop :=
  (exists v, excitation w x v) /\ x <> PyList err_vect.

(** Calling [f] on each candidate in turn, stopping at the first raise. *)
Fixpoint call_each {A} (f : pyseq -> M A) (xs : list pyseq) : M (list A) :=
  match xs with
  | [] => ret []
  | x :: rest =>
      a <- f x ;;
      others <- call_each f rest ;;
      ret (a :: others)
  end.

(** ** The excitation loop *)

Lemma evalAntenna_unfold hfss setup N_samples x ev tp :
  evalAntenna hfss setup N_samples x ev tp =
  (phases <- slice x 0 (Some 5) ;;
   amps <- slice x 5 None ;;
   for_range 5 (excite_element phases amps) ;;
   solve_and_score hfss setup N_samples ev tp).
Proof. reflexivity. Qed.

Lemma clamp_below a : (Rabs a < floor_eps)%R -> clamp a = floor_eps.
Proof. intros H. unfold clamp. destruct (Rlt_dec _ _); [done | contradiction]. Qed.

Lemma clamp_above a : (floor_eps <= Rabs a)%R -> clamp a = a.
Proof. intros H. unfold clamp. destruct (Rlt_dec _ _); [lra | done]. Qed.

Lemma bind_step {A B} (m : M A) (k : A -> M B) w a w' :
  m w = (Ret a, w') -> bind m k w = k a w'.
Proof. intros H. unfold bind. by rewrite H. Qed.

Lemma bind_stop {A B} (m : M A) (k : A -> M B) w e w' :
  m w = (Raise e, w') -> bind m k w = (Raise e, w').
Proof. intros H. unfold bind. by rewrite H. Qed.

Lemma lookup_fresh_fst {A} (L : list A) x y :
  (L ++ [x; y]) !! length L = Some x.
Proof. by rewrite list_lookup_middle. Qed.

Lemma lookup_fresh_snd {A} (L : list A) x y :
  (L ++ [x; y]) !! S (length L) = Some y.
Proof.
  rewrite lookup_app_r; [|lia].
  by replace (S (length L) - length L) with 1 by lia.
Qed.

Lemma insert_fresh_snd {A} (L : list A) x y z :
  <[S (length L) := z]> (L ++ [x; y]) = L ++ [x; z].
Proof.
  rewrite insert_app_r_alt; [|lia].
  by replace (S (length L) - length L) with 1 by lia.
Qed.

Lemma excite_element_list L ps qs i p a arr vars :
  ps !! i = Some p -> qs !! i = Some a ->
  excite_element (PyList (length L)) (PyList (S (length L))) i
    (World (L ++ [ps; qs]) arr vars) =
  (Ret tt, World (L ++ [ps; <[i := clamp a]> qs]) arr
                 (vars ++ element_commands i p (clamp a))).
Proof.
  intros Hp Ha.
  assert (Hi : i < length qs) by (by eapply lookup_lt_Some).
  unfold excite_element, bind, getitem, clamp; simpl.
  rewrite lookup_fresh_snd, Ha.
  destruct (Rlt_dec (Rabs a) floor_eps) as [Hlt|Hge]; simpl.
  - rewrite lookup_fresh_snd. destruct (decide (i < length qs)); [|lia].
    unfold set_lists; simpl.
    rewrite insert_fresh_snd, lookup_fresh_fst, Hp; simpl.
    rewrite lookup_fresh_snd, list_lookup_insert_eq by done.
    unfold SetVariableValue, element_commands; simpl.
    by rewrite <- app_assoc.
  - rewrite lookup_fresh_fst, Hp; simpl.
    rewrite lookup_fresh_snd, Ha.
    unfold SetVariableValue, element_commands; simpl.
    rewrite list_insert_id by done.
    by rewrite <- app_assoc.
Qed.

Lemma excite_element_array L A l o b i p a vars :
  i < 5 -> A !! l = Some b ->
  b !! (o + i) = Some p -> b !! (o + 5 + i) = Some a ->
  excite_element (NdArray l o 5) (NdArray l (o + 5) 5) i (World L A vars) =
  (Ret tt, World L (<[l := <[o + 5 + i := clamp a]> b]> A)
                 (vars ++ element_commands i p (clamp a))).
Proof.
  intros Hi Hb Hp Ha.
  assert (Hl : l < length A) by (by eapply lookup_lt_Some).
  assert (Hn : o + 5 + i < length b) by (by eapply lookup_lt_Some).
  unfold excite_element, bind, getitem, clamp; simpl.
  rewrite Hb. destruct (decide (i < 5)); [|lia]. rewrite Ha.
  destruct (Rlt_dec (Rabs a) floor_eps) as [Hlt|Hge]; simpl.
  - rewrite Hb.
    destruct (decide (i < 5 /\ o + 5 + i < length b)); [|lia].
    unfold set_arrays; simpl.
    rewrite list_lookup_insert_eq by done.
    destruct (decide (i < 5)); [|lia].
    rewrite list_lookup_insert_ne by lia. rewrite Hp; simpl.
    rewrite list_lookup_insert_eq by done.
    destruct (decide (i < 5)); [|lia].
    rewrite list_lookup_insert_eq by done.
    unfold SetVariableValue, element_commands; simpl.
    by rewrite <- app_assoc.
  - rewrite Hb. destruct (decide (i < 5)); [|lia]. rewrite Hp; simpl.
    rewrite Hb. destruct (decide (i < 5)); [|lia]. rewrite Ha.
    unfold SetVariableValue, element_commands; simpl.
    rewrite (list_insert_id b) by done.
    rewrite list_insert_id by done.
    by rewrite <- app_assoc.
Qed.

Lemma lookup_window {A} (pre mid post : list A) i x :
  mid !! i = Some x -> (pre ++ mid ++ post) !! (length pre + i) = Some x.
Proof.
  intros H. rewrite lookup_app_r by lia.
  replace (length pre + i - length pre) with i by lia.
  apply lookup_app_l_Some, H.
Qed.

Lemma insert_window {A} (pre mid post : list A) i x :
  i < length mid ->
  <[length pre + i := x]> (pre ++ mid ++ post) = pre ++ <[i := x]> mid ++ post.
Proof. intros H. by rewrite insert_app_r, insert_app_l. Qed.

Lemma excite_element_window L A l pre mid post i p a vars :
  i < 5 -> l < length A ->
  mid !! i = Some p -> mid !! (5 + i) = Some a ->
  excite_element (NdArray l (length pre) 5) (NdArray l (length pre + 5) 5) i
    (World L (<[l := pre ++ mid ++ post]> A) vars) =
  (Ret tt, World L (<[l := pre ++ <[5 + i := clamp a]> mid ++ post]> A)
                 (vars ++ element_commands i p (clamp a))).
Proof.
  intros Hi Hl Hp Ha.
  erewrite excite_element_array; [|done| |by apply lookup_window|].
  - rewrite list_insert_insert_eq.
    replace (length pre + 5 + i) with (length pre + (5 + i)) by lia.
    rewrite insert_window; [done|by eapply lookup_lt_Some].
  - by rewrite list_lookup_insert_eq.
  - replace (length pre + 5 + i) with (length pre + (5 + i)) by lia.
    by apply lookup_window.
Qed.

Lemma excitation_loop_list L arr vars p0 p1 p2 p3 p4 a0 a1 a2 a3 a4 :
  for_range 5 (excite_element (PyList (length L)) (PyList (S (length L))))
    (World (L ++ [[p0; p1; p2; p3; p4]; [a0; a1; a2; a3; a4]]) arr vars) =
  (Ret tt,
   World (L ++ [[p0; p1; p2; p3; p4]; clamp <$> [a0; a1; a2; a3; a4]]) arr
         (vars ++ excitation_commands [p0; p1; p2; p3; p4]
                    (clamp <$> [a0; a1; a2; a3; a4]))).
Proof.
  unfold for_range. cbn [seq for_each].
  do 5 (erewrite bind_step by (apply excite_element_list; reflexivity);
        cbn [insert list_insert]).
  unfold ret, excitation_commands. cbn [fmap list_fmap zip zip_with imap concat fst snd].
  by rewrite <- !app_assoc.
Qed.

Lemma excitation_loop_array L A l pre post vars
    p0 p1 p2 p3 p4 a0 a1 a2 a3 a4 :
  l < length A ->
  for_range 5
    (excite_element (NdArray l (length pre) 5) (NdArray l (length pre + 5) 5))
    (World L (<[l := pre ++ [p0; p1; p2; p3; p4; a0; a1; a2; a3; a4] ++ post]> A)
           vars) =
  (Ret tt,
   World L
     (<[l := pre ++ ([p0; p1; p2; p3; p4] ++ (clamp <$> [a0; a1; a2; a3; a4]))
                 ++ post]> A)
     (vars ++ excitation_commands [p0; p1; p2; p3; p4]
                (clamp <$> [a0; a1; a2; a3; a4]))).
Proof.
  intros Hl. unfold for_range. cbn [seq for_each].
  do 5 (erewrite bind_step
          by (apply excite_element_window; [lia|done|reflexivity..]);
        cbn [insert list_insert Nat.add]).
  unfold ret, excitation_commands. cbn [fmap list_fmap zip zip_with imap concat fst snd app].
  by rewrite <- !app_assoc.
Qed.

Ltac ten_entries v Hlen :=
  do 10 (destruct v as [|? v]; [discriminate Hlen|]);
  destruct v; [|discriminate Hlen].

Lemma evalAntenna_excited hfss setup N_samples x ev tp w v :
  excitation w x v ->
  evalAntenna hfss setup N_samples x ev tp w =
  solve_and_score hfss setup N_samples ev tp (excited w x v).
Proof.
  intros [Hx Hlen]. rewrite evalAntenna_unfold.
  destruct x as [l|l o n]; simpl in Hx.
  - ten_entries v Hlen.
    unfold bind at 1. unfold slice at 1. rewrite Hx.
    unfold bind at 1. unfold slice at 1. unfold set_lists at 1 2. simpl lists.
    rewrite lookup_app_l by (by eapply lookup_lt_Some). rewrite Hx.
    unfold set_lists. cbn [lists arrays variables length Nat.sub take drop].
    rewrite <- app_assoc. cbn [app].
    rewrite length_app. cbn [length]. rewrite Nat.add_1_r.
    erewrite bind_step by apply excitation_loop_list.
    reflexivity.
  - destruct (arrays w !! l) as [b|] eqn:Hb; [|discriminate].
    destruct (decide (o + n <= length b)) as [Hn|]; [|discriminate].
    injection Hx as Hv.
    assert (n = 10) as ->.
    { rewrite <- Hv, length_take, length_drop in Hlen. lia. }
    assert (Hsplit : b = take o b ++ v ++ drop (o + 10) b).
    { rewrite <- Hv. rewrite <- (take_drop o b) at 1. f_equal.
      rewrite <- (take_drop 10 (drop o b)) at 1. f_equal.
      rewrite drop_drop. done. }
    assert (Ho : length (take o b) = o) by (rewrite length_take; lia).
    assert (Hl : l < length (arrays w)) by (by eapply lookup_lt_Some).
    ten_entries v Hlen.
    unfold bind at 1. unfold slice at 1. unfold ret at 1.
    unfold bind at 1. unfold slice at 1. unfold ret at 1.
    cbn [Nat.min Nat.sub]. rewrite Nat.add_0_r.
    unfold excited. rewrite Hb.
    destruct w as [L A vars]; simpl in *.
    rewrite <- (list_insert_id A l b) at 1 by done.
    rewrite Hsplit at 1. rewrite <- Ho at 1 2.
    erewrite bind_step by (by apply excitation_loop_array).
    unfold floored. cbn [take drop]. reflexivity.
Qed.

(** ** After the loop: solve, extract, score *)

Lemma solve_and_score_unscored hfss setup N_samples ev tp w sd :
  analyze setup (variables w) = Ret tt ->
  get_solution_data hfss (variables w) = Ret sd ->
  ev = None \/ tp = None ->
  solve_and_score hfss setup N_samples ev tp w = (Ret (observed N_samples sd), w).
Proof.
  intros Ha Hq Hnone.
  unfold solve_and_score, bind, run_analyze, run_get_solution_data,
    try_except, lift, ret, observed.
  rewrite Ha, Hq.
  destruct (data_magnitude sd), Hnone as [-> | ->]; try done; by destruct ev.
Qed.

Lemma solve_and_score_scored hfss setup N_samples ev tp w sd d tr :
  analyze setup (variables w) = Ret tt ->
  get_solution_data hfss (variables w) = Ret sd ->
  np_sub (observed N_samples sd) tp = Ret d ->
  lists w !! ev = Some tr ->
  solve_and_score hfss setup N_samples (Some ev) (Some tp) w =
  (Ret (observed N_samples sd),
   set_lists (<[ev := tr ++ [np_linalg_norm d]]> (lists w)) w).
Proof.
  intros Ha Hq Hd Htr.
  unfold solve_and_score, bind, run_analyze, run_get_solution_data,
    try_except, lift, ret, append, observed in *.
  rewrite Ha, Hq.
  destruct (data_magnitude sd); rewrite Hd; simpl; by rewrite Htr.
Qed.

Lemma solve_and_score_mismatch hfss setup N_samples ev tp w sd e :
  analyze setup (variables w) = Ret tt ->
  get_solution_data hfss (variables w) = Ret sd ->
  np_sub (observed N_samples sd) tp = Raise e ->
  solve_and_score hfss setup N_samples (Some ev) (Some tp) w = (Raise e, w).
Proof.
  intros Ha Hq Hd.
  unfold solve_and_score, bind, run_analyze, run_get_solution_data,
    try_except, lift, ret, append, observed in *.
  rewrite Ha, Hq.
  destruct (data_magnitude sd); by rewrite Hd.
Qed.

(** Whatever the session answers, the tail of [evalAntenna] either
    appends one score to the trace or leaves the store as it was. *)
Lemma solve_and_score_cases hfss setup N_samples ev tp w tr r w' :
  lists w !! ev = Some tr ->
  solve_and_score hfss setup N_samples (Some ev) (Some tp) w = (r, w') ->
  (exists g d, r = Ret g /\ np_sub g tp = Ret d /\
     w' = set_lists (<[ev := tr ++ [np_linalg_norm d]]> (lists w)) w) \/
  (exists e, r = Raise e /\ w' = w).
Proof.
  intros Htr.
  unfold solve_and_score, bind, run_analyze, run_get_solution_data,
    try_except, lift, ret, append.
  destruct (analyze setup (variables w)) as [[]|e];
    [|intros [= <- <-]; right; by eexists].
  destruct (get_solution_data hfss (variables w)) as [sd|e];
    [|intros [= <- <-]; right; by eexists].
  destruct (data_magnitude sd) as [g|e0].
  - destruct (np_sub g tp) as [d|e] eqn:Hd; rewrite ?Htr.
    + intros [= <- <-]. left. by exists g, d.
    + intros [= <- <-]. right. by eexists.
  - destruct (np_sub (np_zeros N_samples) tp) as [d|e] eqn:Hd; rewrite ?Htr.
    + intros [= <- <-]. left. by exists (np_zeros N_samples), d.
    + intros [= <- <-]. right. by eexists.
Qed.

Lemma solve_and_score_frame hfss setup N_samples ev tp w :
  variables (solve_and_score hfss setup N_samples ev tp w).2 = variables w /\
  arrays (solve_and_score hfss setup N_samples ev tp w).2 = arrays w.
Proof.
  unfold solve_and_score, bind, run_analyze, run_get_solution_data,
    try_except, lift, ret, append.
  destruct (analyze setup (variables w)) as [[]|]; [|done].
  destruct (get_solution_data hfss (variables w)) as [sd|]; [|done].
  destruct (data_magnitude sd) as [g|], ev as [l|], tp as [t|]; try done.
  - destruct (np_sub g t); [|done]. by destruct (lists w !! l).
  - destruct (np_sub (np_zeros N_samples) t); [|done]. by destruct (lists w !! l).
Qed.

(** ** What the loop leaves in the store *)

Lemma excited_variables w x v :
  variables (excited w x v) =
  variables w ++ excitation_commands (take 5 v) (clamp <$> drop 5 v).
Proof. destruct x as [l|l o n]; simpl; [done|]. by destruct (arrays w !! l). Qed.

Lemma excited_trace w x v ev tr :
  lists w !! ev = Some tr -> lists (excited w x v) !! ev = Some tr.
Proof.
  intros H. destruct x as [l|l o n]; simpl.
  - by apply lookup_app_l_Some.
  - by destruct (arrays w !! l).
Qed.

Lemma floored_length v : length v = 10 -> length (floored v) = 10.
Proof.
  intros H. unfold floored.
  rewrite length_app, length_take, length_fmap, length_drop. lia.
Qed.

Lemma excited_list_kept w l v :
  excitation w (PyList l) v ->
  contents (excited w (PyList l) v) (PyList l) = Some v.
Proof. intros [H _]. simpl in *. by apply lookup_app_l_Some. Qed.

Lemma excited_array_floored w l o n v :
  excitation w (NdArray l o n) v ->
  contents (excited w (NdArray l o n) v) (NdArray l o n) = Some (floored v).
Proof.
  intros [H Hlen]. simpl in *.
  destruct (arrays w !! l) as [b|] eqn:Hb; [|done].
  destruct (decide (o + n <= length b)) as [Hn|]; [|done].
  injection H as Hv.
  assert (n = 10) as ->.
  { rewrite <- Hv, length_take, length_drop in Hlen. lia. }
  simpl. rewrite list_lookup_insert_eq by (by eapply lookup_lt_Some).
  pose proof (floored_length v Hlen) as Hf.
  rewrite !length_app, length_take, length_drop, Hf.
  destruct (decide _) as [_|Hbad]; [|lia].
  rewrite drop_app_length' by (rewrite length_take; lia).
  by rewrite take_app_length' by done.
Qed.

(** claim C5: for an Excitation Vector, the loop hands the solver, element
    by element and in order, the phase as it stands and an amplitude
    that is exactly the floor when its magnitude is strictly below the
    floor and the amplitude itself otherwise; whatever the solver
    answers afterwards, these are the assignments made. *)
Theorem amplitude_floor_presented hfss setup N_samples x ev tp w v :
  excitation w x v ->
  exists shown : list R,
    variables (evalAntenna hfss setup N_samples x ev tp w).2 =
      variables w ++ excitation_commands (take 5 v) shown /\
    length shown = 5 /\
    forall i a, drop 5 v !! i = Some a ->
      ((Rabs a < floor_eps)%R -> shown !! i = Some floor_eps) /\
      ((floor_eps <= Rabs a)%R -> shown !! i = Some a).
Proof.
  intros Hx. exists (clamp <$> drop 5 v).
  rewrite (evalAntenna_excited _ _ _ _ _ _ _ _ Hx).
  destruct (solve_and_score_frame hfss setup N_samples ev tp (excited w x v))
    as [-> _].
  split; [apply excited_variables|]. destruct Hx as [_ Hlen].
  split; [rewrite length_fmap, length_drop; lia|].
  intros i a Ha. rewrite list_lookup_fmap, Ha. simpl.
  split; intros Hcmp; f_equal; [by apply clamp_below | by apply clamp_above].
Qed.

(** ** The objective closure *)

Lemma error_function_returns hfss setup N_samples ev tp x w v sd d tr :
  excitation w x v -> answers hfss setup w x v sd ->
  lists w !! ev = Some tr ->
  np_sub (observed N_samples sd) tp = Ret d ->
  error_function hfss setup N_samples ev tp x w =
  (Ret (np_linalg_norm d),
   set_lists (<[ev := tr ++ [np_linalg_norm d]]> (lists (excited w x v)))
             (excited w x v)).
Proof.
  intros Hx [Ha Hq] Htr Hd. unfold error_function.
  erewrite bind_step; last first.
  { rewrite (evalAntenna_excited _ _ _ _ _ _ _ _ Hx).
    eapply solve_and_score_scored; eauto using excited_trace. }
  unfold bind, lift, ret. by rewrite Hd.
Qed.

Lemma error_function_raises hfss setup N_samples ev tp x w v sd e :
  excitation w x v -> answers hfss setup w x v sd ->
  np_sub (observed N_samples sd) tp = Raise e ->
  error_function hfss setup N_samples ev tp x w = (Raise e, excited w x v).
Proof.
  intros Hx [Ha Hq] Hd. unfold error_function.
  erewrite bind_stop; [done|].
  rewrite (evalAntenna_excited _ _ _ _ _ _ _ _ Hx).
  by eapply solve_and_score_mismatch.
Qed.

Lemma array_excitation w l o n :
  (exists v, excitation w (NdArray l o n) v) <->
  (exists b, arrays w !! l = Some b /\ o + n <= length b /\ n = 10).
Proof.
  unfold excitation; simpl. split.
  - intros (v & H & Hlen).
    destruct (arrays w !! l) as [b|]; [|done].
    destruct (decide (o + n <= length b)); [|done].
    injection H as <-. rewrite length_take, length_drop in Hlen.
    exists b. repeat split; [done|lia].
  - intros (b & -> & Hn & ->).
    destruct (decide (o + 10 <= length b)); [|lia].
    eexists. split; [done|]. rewrite length_take, length_drop. lia.
Qed.

Lemma candidate_excited w x v ev x' :
  excitation w x v -> candidate w ev x' -> candidate (excited w x v) ev x'.
Proof.
  intros Hx [Hv' Hne]. split; [|done].
  destruct x' as [l'|l' o' n'].
  - destruct Hv' as (v' & H' & Hlen'). exists v'. split; [|done].
    simpl in *. destruct x as [l|l o n]; simpl.
    + by apply lookup_app_l_Some.
    + by destruct (arrays w !! l).
  - apply array_excitation in Hv' as (b' & Hb' & Hn' & ->).
    apply array_excitation.
    destruct x as [l|l o n]; simpl; [by exists b'|].
    destruct (arrays w !! l) as [b|] eqn:Hb; simpl; [|by exists b'].
    destruct (decide (l = l')) as [->|Hll].
    + assert (b' = b) as -> by congruence.
      eexists. split; [apply list_lookup_insert_eq; by eapply lookup_lt_Some|].
      split; [|done].
      destruct Hx as [Hx Hlen]. simpl in Hx. rewrite Hb in Hx.
      destruct (decide (o + n <= length b)); [|done]. injection Hx as Hv.
      assert (n = 10) as ->.
      { rewrite <- Hv, length_take, length_drop in Hlen. lia. }
      rewrite !length_app, length_take, length_drop, (floored_length v Hlen).
      lia.
    + exists b'. by rewrite list_lookup_insert_ne.
Qed.

Lemma candidate_appended w ev tr x' :
  candidate w ev x' ->
  candidate (set_lists (<[ev := tr]> (lists w)) w) ev x'.
Proof.
  intros [Hv' Hne]. split; [|done].
  destruct x' as [l'|l' o' n']; [|done].
  destruct Hv' as (v' & H' & Hlen'). exists v'. split; [|done].
  simpl in *. rewrite list_lookup_insert_ne; [done|congruence].
Qed.

(** One call of the objective: the trace gains the returned score, or
    nothing when the call raises, and every other candidate stays one. *)
Lemma error_function_effect hfss setup N_samples ev tp x w v tr r w' :
  excitation w x v -> lists w !! ev = Some tr ->
  error_function hfss setup N_samples ev tp x w = (r, w') ->
  lists w' !! ev =
    Some (tr ++ match r with Ret e => [e] | Raise _ => [] end) /\
  (forall x', candidate w ev x' -> candidate w' ev x').
Proof.
  intros Hx Htr. unfold error_function, bind at 1.
  rewrite (evalAntenna_excited _ _ _ _ _ _ _ _ Hx).
  destruct (solve_and_score _ _ _ _ _ _) as [r1 w1] eqn:Hs.
  eapply solve_and_score_cases in Hs as
    [(g & d & -> & Hd & ->)|(e & -> & ->)]; [| |by eapply excited_trace].
  - unfold bind, lift, ret. rewrite Hd. intros [= <- <-]. split.
    + simpl. apply list_lookup_insert_eq.
      eapply lookup_lt_Some, excited_trace, Htr.
    + intros x' Hc. by apply candidate_appended, candidate_excited.
  - intros [= <- <-]. split.
    + rewrite app_nil_r. by apply excited_trace.
    + intros x' Hc. by apply candidate_excited.
Qed.

(** ** Subtraction and norm *)

Lemma np_sub_aligned a b :
  length a = length b -> np_sub a b = Ret (zip_with Rminus a b).
Proof. intros H. unfold np_sub. by destruct (decide _). Qed.

Lemma np_sub_12_10 a b :
  length a = 12 -> length b = 10 -> np_sub a b = Raise ValueError.
Proof.
  intros Ha Hb. unfold np_sub.
  destruct (decide (length a = length b)); [lia|].
  destruct a as [|? [|? ?]]; [done..|].
  by destruct b as [|? [|? ?]].
Qed.

Lemma sum_squares_zero_minus t :
  sum_squares (zip_with Rminus (np_zeros (length t)) t) = sum_squares t.
Proof.
  induction t as [|a t IH]; [done|].
  unfold sum_squares, np_zeros in *; simpl. rewrite IH. lra.
Qed.

Lemma np_zeros_all_zero n : Forall (fun g => g = 0%R) (np_zeros n).
Proof. apply Forall_replicate. done. Qed.

(** claim C3: when [data_magnitude] raises, [evalAntenna] still returns:
    it yields the zero pattern of exactly [N_samples] entries, and the
    objective built on that pattern returns the norm of the target. *)
Theorem degraded_fallback hfss setup x w v sd e :
  excitation w x v -> answers hfss setup w x v sd ->
  data_magnitude sd = Raise e ->
  (forall N_samples, exists w',
     evalAntenna hfss setup N_samples x None None w =
       (Ret (np_zeros N_samples), w') /\
     length (np_zeros N_samples) = N_samples /\
     Forall (fun g => g = 0%R) (np_zeros N_samples)) /\
  (forall ev tr tp, lists w !! ev = Some tr -> exists w',
     error_function hfss setup (length tp) ev tp x w =
       (Ret (np_linalg_norm tp), w')).
Proof.
  intros Hx Hans He. split.
  - intros N_samples. exists (excited w x v). destruct Hans as [Ha Hq].
    rewrite (evalAntenna_excited _ _ _ _ _ _ _ _ Hx).
    rewrite (solve_and_score_unscored _ _ _ _ _ _ sd) by auto.
    unfold observed. rewrite He.
    split; [done|]. split; [apply length_replicate|apply np_zeros_all_zero].
  - intros ev tr tp Htr. eexists.
    erewrite error_function_returns; [|done..|].
    + unfold np_linalg_norm. by rewrite sum_squares_zero_minus.
    + unfold observed. rewrite He. apply np_sub_aligned, length_replicate.
Qed.

(** claim C4, as amended: [evalAntenna] returns the zero pattern of
    exactly [N_samples] entries when [data_magnitude] raises, and the
    oracle's own sequence, whatever its length, when it answers. *)
Theorem evaluate_length hfss setup N_samples x w v sd :
  excitation w x v -> answers hfss setup w x v sd ->
  exists g w',
    evalAntenna hfss setup N_samples x None None w = (Ret g, w') /\
    match data_magnitude sd with
    | Raise _ => g = np_zeros N_samples /\ length g = N_samples
    | Ret d => g = d
    end.
Proof.
  intros Hx [Ha Hq]. exists (observed N_samples sd), (excited w x v).
  rewrite (evalAntenna_excited _ _ _ _ _ _ _ _ Hx).
  rewrite (solve_and_score_unscored _ _ _ _ _ _ sd) by auto.
  split; [done|]. unfold observed.
  destruct (data_magnitude sd); [done|].
  split; [done|apply length_replicate].
Qed.

(** claim C6: with observed and target of equal length the objective
    returns the square root of the sum of squared element-wise
    differences, and the score appended to the trace during the call is
    that same value. *)
Theorem objective_is_l2_distance hfss setup x w v sd ev tr tp :
  excitation w x v -> answers hfss setup w x v sd ->
  lists w !! ev = Some tr ->
  length (observed (length tp) sd) = length tp ->
  exists err w',
    error_function hfss setup (length tp) ev tp x w = (Ret err, w') /\
    err = sqrt (sum_squares (zip_with Rminus (observed (length tp) sd) tp)) /\
    lists w' !! ev = Some (tr ++ [err]).
Proof.
  intros Hx Hans Htr Hlen. do 2 eexists.
  erewrite error_function_returns; [|done..|by apply np_sub_aligned].
  split; [done|]. split; [done|]. simpl.
  apply list_lookup_insert_eq. eapply lookup_lt_Some, excited_trace, Htr.
Qed.

(** claim C8: a target of ten samples against an observed pattern of
    twelve makes the objective raise; no score is returned and none is
    appended to the trace. *)
Theorem length_mismatch_is_fatal hfss setup x w v sd ev tr tp obs :
  excitation w x v -> answers hfss setup w x v sd ->
  lists w !! ev = Some tr ->
  data_magnitude sd = Ret obs -> length obs = 12 -> length tp = 10 ->
  exists w',
    error_function hfss setup (length tp) ev tp x w = (Raise ValueError, w') /\
    lists w' !! ev = Some tr.
Proof.
  intros Hx Hans Htr Hobs Ho Ht. exists (excited w x v).
  split; [|by apply excited_trace].
  eapply error_function_raises; [done..|].
  unfold observed. rewrite Hobs. by apply np_sub_12_10.
Qed.

(** claim C7: over any run of objective calls on candidates the trace
    only grows at its end; when all [k] calls return, the entries added
    are the [k] returned scores, in order, and when a call raises, fewer
    than [k] were added. *)
Theorem trace_growth hfss setup N_samples ev tp xs :
  forall w tr r w',
    Forall (candidate w ev) xs ->
    lists w !! ev = Some tr ->
    call_each (error_function hfss setup N_samples ev tp) xs w = (r, w') ->
    exists added,
      lists w' !! ev = Some (tr ++ added) /\
      match r with
      | Ret scores => added = scores /\ length added = length xs
      | Raise _ => length added < length xs
      end.
Proof.
  induction xs as [|x xs IH]; intros w tr r w' Hxs Htr; simpl.
  - intros [= <- <-]. exists []. by rewrite app_nil_r.
  - apply Forall_cons in Hxs as [[[v Hx] Hne] Hxs].
    unfold bind at 1.
    destruct (error_function _ _ _ _ _ x w) as [r1 w1] eqn:H1.
    destruct (error_function_effect _ _ _ _ _ _ _ _ _ _ _ Hx Htr H1)
      as [Htr1 Hkeep].
    destruct r1 as [err|e].
    + unfold bind at 1.
      destruct (call_each _ xs w1) as [r2 w2] eqn:H2.
      eapply IH in H2 as (added & Htr2 & Hr2);
        [|eapply Forall_impl; eauto|done].
      destruct r2 as [scores|e]; intros [= <- <-].
      * destruct Hr2 as [-> Hlen]. exists (err :: scores).
        rewrite <- app_assoc in Htr2. simpl in *. by rewrite Hlen.
      * exists (err :: added).
        rewrite <- app_assoc in Htr2. simpl in *. split; [done|lia].
    + intros [= <- <-]. exists []. rewrite app_nil_r in *. simpl.
      split; [done|lia].
Qed.

(** ** Normalising the target *)

Lemma foldl_Rmax_bounds l : forall x,
  (x <= foldl Rmax x l)%R /\
  Forall (fun y => (y <= foldl Rmax x l)%R) l /\
  (foldl Rmax x l = x \/ foldl Rmax x l ∈ l).
Proof.
  induction l as [|a l IH]; intros x; simpl.
  - split; [lra|]. split; [constructor|by left].
  - destruct (IH (Rmax x a)) as (Hge & Hall & Hin).
    pose proof (Rmax_l x a). pose proof (Rmax_r x a).
    split; [lra|]. split; [constructor; [lra|done]|].
    destruct Hin as [Heq|Hin]; [|right; by apply elem_of_cons; right].
    rewrite Heq. unfold Rmax. destruct (Rle_dec x a); [right|by left].
    apply elem_of_cons; by left.
Qed.

Lemma np_max_spec l m :
  np_max l = Ret m -> m ∈ l /\ Forall (fun y => (y <= m)%R) l.
Proof.
  destruct l as [|x l]; [done|]. simpl. intros [= <-].
  destruct (foldl_Rmax_bounds l x) as (Hge & Hall & Hin). split.
  - apply elem_of_cons. destruct Hin as [->|Hin]; [by left|by right].
  - by constructor.
Qed.

Lemma np_max_unique l m :
  m ∈ l -> Forall (fun y => (y <= m)%R) l -> np_max l = Ret m.
Proof.
  intros Hin Hall. destruct l as [|x l]; [by apply elem_of_nil in Hin|].
  destruct (np_max (x :: l)) as [m'|] eqn:Hm; [|done].
  apply np_max_spec in Hm as [Hin' Hall'].
  rewrite Forall_forall in Hall, Hall'.
  f_equal. apply Rle_antisym; auto.
Qed.

Lemma unit_fraction a m : (0 <= a <= m)%R -> (0 < m)%R -> (0 <= a / m <= 1)%R.
Proof.
  intros [H0 Hm] Hpos. pose proof (Rinv_0_lt_compat m Hpos) as Hinv.
  unfold Rdiv. split; [apply Rmult_le_pos; lra|].
  replace 1%R with (m * / m)%R by (apply Rinv_r; lra).
  apply Rmult_le_compat_r; lra.
Qed.

(** The normalisation of a pattern with a non-zero sample, spelled out. *)
Lemma normalize_target_nonzero t :
  Exists (fun x => x <> 0%R) t ->
  exists m,
    np_max (np_abs t) = Ret m /\ (0 < m)%R /\
    normalize_target t = Ret ((fun x => Rabs x / m)%R <$> t).
Proof.
  intros Hnz. apply Exists_exists in Hnz as (x0 & Hx0 & Hne).
  destruct (np_max (np_abs t)) as [m|] eqn:Hm.
  - pose proof Hm as Hm'. apply np_max_spec in Hm' as [_ Hall].
    rewrite Forall_forall in Hall.
    assert (0 < m)%R as Hpos.
    { pose proof (Hall (Rabs x0) (list_elem_of_fmap_2 Rabs t x0 Hx0)).
      pose proof (Rabs_pos_lt x0 Hne). lra. }
    exists m. split; [done|]. split; [done|].
    unfold normalize_target. rewrite Hm.
    destruct (Req_dec_T m 0); [lra|].
    unfold np_abs. by rewrite <- list_fmap_compose.
  - destruct t; [by apply elem_of_nil in Hx0|done].
Qed.

(** claim C10: whatever the signs of the samples, a pattern with a
    non-zero sample is normalised to the absolute values divided by the
    largest magnitude, so every normalised sample lies in [0, 1]. *)
Theorem normalized_target_in_unit_interval t :
  Exists (fun x => x <> 0%R) t ->
  exists m t',
    np_max (np_abs t) = Ret m /\ (0 < m)%R /\
    normalize_target t = Ret t' /\
    t' = (fun x => Rabs x / m)%R <$> t /\
    Forall (fun y => (0 <= y <= 1)%R) t'.
Proof.
  intros Hnz. destruct (normalize_target_nonzero t Hnz) as (m & Hm & Hpos & Hn).
  exists m, ((fun x => Rabs x / m)%R <$> t). repeat split; try done.
  apply np_max_spec in Hm as [_ Hall]. rewrite Forall_forall in Hall.
  apply Forall_fmap, Forall_forall. intros x Hx. simpl.
  apply unit_fraction; [|done]. split; [apply Rabs_pos|].
  apply Hall, list_elem_of_fmap_2, Hx.
Qed.

(** claim C9: normalising a pattern with a non-zero sample yields a
    pattern whose largest absolute value is exactly 1, and normalising a
    non-negative pattern whose largest absolute value is 1 returns it
    unchanged. *)
Theorem normalization_max_and_idempotence :
  (forall t, Exists (fun x => x <> 0%R) t ->
     exists t', normalize_target t = Ret t' /\ np_max (np_abs t') = Ret 1%R) /\
  (forall t, Forall (fun x => (0 <= x)%R) t ->
     np_max (np_abs t) = Ret 1%R -> normalize_target t = Ret t).
Proof.
  split.
  - intros t Hnz.
    destruct (normalize_target_nonzero t Hnz) as (m & Hm & Hpos & Hn).
    eexists. split; [done|].
    apply np_max_spec in Hm as [Hin Hall]. rewrite Forall_forall in Hall.
    assert (Hunit : forall x, x ∈ t -> (0 <= Rabs x / m <= 1)%R).
    { intros x Hx. apply unit_fraction; [|done]. split; [apply Rabs_pos|].
      apply Hall, list_elem_of_fmap_2, Hx. }
    apply np_max_unique.
    + apply list_elem_of_fmap in Hin as (x & -> & Hx).
      apply list_elem_of_fmap. exists (Rabs x / Rabs x)%R. split.
      * replace (Rabs x / Rabs x)%R with 1%R by (field; lra).
        by rewrite Rabs_R1.
      * apply (list_elem_of_fmap_2 (fun y => Rabs y / Rabs x)%R t x Hx).
    + unfold np_abs. apply Forall_fmap, Forall_fmap, Forall_forall.
      intros x Hx. simpl. destruct (Hunit x Hx).
      rewrite Rabs_right; lra.
  - intros t Hpos Hm. unfold normalize_target. rewrite Hm.
    destruct (Req_dec_T 1 0); [lra|]. f_equal.
    unfold np_abs. rewrite <- list_fmap_compose.
    rewrite <- (list_fmap_id t) at 2. apply list_fmap_ext.
    intros i x Hx. simpl.
    rewrite Forall_lookup in Hpos. pose proof (Hpos i x Hx).
    rewrite Rabs_right by lra. unfold id. field.
Qed.

(** ** The caller's vector after a call *)

Lemma solve_and_score_other_lists hfss setup N_samples ev tp w l :
  ev <> Some l ->
  lists (solve_and_score hfss setup N_samples ev tp w).2 !! l = lists w !! l.
Proof.
  intros Hne.
  unfold solve_and_score, bind, run_analyze, run_get_solution_data,
    try_except, lift, ret, append.
  destruct (analyze setup (variables w)) as [[]|]; [|done].
  destruct (get_solution_data hfss (variables w)) as [sd|]; [|done].
  destruct (data_magnitude sd) as [g|], ev as [k|], tp as [t|]; try done.
  - destruct (np_sub g t); [|done].
    destruct (lists w !! k); [|done]. simpl.
    apply list_lookup_insert_ne. congruence.
  - destruct (np_sub (np_zeros N_samples) t); [|done].
    destruct (lists w !! k); [|done]. simpl.
    apply list_lookup_insert_ne. congruence.
Qed.

(** A list passed in is read through copies: the caller's list is kept. *)
Lemma evalAntenna_keeps_list hfss setup N_samples l ev tp w v :
  excitation w (PyList l) v -> ev <> Some l ->
  contents (evalAntenna hfss setup N_samples (PyList l) ev tp w).2 (PyList l)
  = Some v.
Proof.
  intros Hx Hne. rewrite (evalAntenna_excited _ _ _ _ _ _ _ _ Hx).
  unfold contents. rewrite solve_and_score_other_lists by done.
  by apply excited_list_kept.
Qed.

(** An array passed in is read through views: its amplitude half is
    floored in place, whatever the solver answers afterwards. *)
Lemma evalAntenna_floors_array hfss setup N_samples l o n ev tp w v :
  excitation w (NdArray l o n) v ->
  contents (evalAntenna hfss setup N_samples (NdArray l o n) ev tp w).2
    (NdArray l o n) = Some (floored v).
Proof.
  intros Hx. rewrite (evalAntenna_excited _ _ _ _ _ _ _ _ Hx).
  rewrite <- (excited_array_floored _ _ _ _ _ Hx).
  unfold contents.
  by destruct (solve_and_score_frame hfss setup N_samples ev tp
                 (excited w (NdArray l o n) v)) as [_ ->].
Qed.

(** A one-sample operand is stretched, not rejected. *)
Remark np_sub_broadcasts g tp :
  length tp <> 1 -> np_sub [g] tp = Ret ((fun y => g - y)%R <$> tp).
Proof.
  intros H. unfold np_sub. simpl. by destruct (decide (1 = length tp)).
Qed.

(** ** Further behaviour of [evalAntenna] and of the objective *)

Lemma evalAntenna_variables hfss setup N_samples x ev tp w v :
  excitation w x v ->
  variables (evalAntenna hfss setup N_samples x ev tp w).2 =
  variables w ++ excitation_commands (take 5 v) (clamp <$> drop 5 v).
Proof.
  intros Hx. rewrite (evalAntenna_excited _ _ _ _ _ _ _ _ Hx).
  destruct (solve_and_score_frame hfss setup N_samples ev tp (excited w x v))
    as [-> _].
  apply excited_variables.
Qed.

Lemma np_sub_mismatch a b :
  length a <> length b -> length a <> 1 -> length b <> 1 ->
  np_sub a b = Raise ValueError.
Proof.
  intros Hab Ha Hb. unfold np_sub.
  destruct (decide (length a = length b)); [done|].
  destruct a as [|? [|? ?]], b as [|? [|? ?]]; done.
Qed.

(** extra X1: any two lengths that differ, neither of them one, make the
    objective raise [ValueError]; the trace is left as it was. *)
Theorem mismatch_is_fatal hfss setup x w v sd ev tr tp obs :
  excitation w x v -> answers hfss setup w x v sd ->
  lists w !! ev = Some tr ->
  data_magnitude sd = Ret obs ->
  length obs <> length tp -> length obs <> 1 -> length tp <> 1 ->
  exists w',
    error_function hfss setup (length tp) ev tp x w = (Raise ValueError, w') /\
    lists w' !! ev = Some tr.
Proof.
  intros Hx Hans Htr Hobs Hne Ho Ht. exists (excited w x v).
  split; [|by apply excited_trace].
  eapply error_function_raises; [done..|].
  unfold observed. rewrite Hobs. by apply np_sub_mismatch.
Qed.

(** extra X2: an oracle curve of a single sample is not rejected: it is
    stretched over the target, a score comes back and is recorded, and
    [evalAntenna] itself hands back the one-sample curve. *)
Theorem single_sample_is_broadcast hfss setup x w v sd ev tr tp g :
  excitation w x v -> answers hfss setup w x v sd ->
  lists w !! ev = Some tr ->
  data_magnitude sd = Ret [g] -> length tp <> 1 ->
  exists w',
    error_function hfss setup (length tp) ev tp x w =
      (Ret (sqrt (sum_squares ((fun y => g - y)%R <$> tp))), w') /\
    lists w' !! ev =
      Some (tr ++ [sqrt (sum_squares ((fun y => g - y)%R <$> tp))]) /\
    (evalAntenna hfss setup (length tp) x (Some ev) (Some tp) w).1 = Ret [g].
Proof.
  intros Hx Hans Htr Hobs Ht.
  assert (Hd : np_sub (observed (length tp) sd) tp =
               Ret ((fun y => g - y)%R <$> tp)).
  { unfold observed. rewrite Hobs. by apply np_sub_broadcasts. }
  eexists. erewrite error_function_returns; [|done..].
  split; [done|]. split.
  - simpl. apply list_lookup_insert_eq.
    eapply lookup_lt_Some, excited_trace, Htr.
  - rewrite (evalAntenna_excited _ _ _ _ _ _ _ _ Hx). destruct Hans as [Ha Hq].
    erewrite solve_and_score_scored; eauto using excited_trace.
    simpl. unfold observed. by rewrite Hobs.
Qed.

(** extra X3: the zero-pattern fallback covers [data_magnitude] only.  A
    raise from [setup.analyze()] or from [get_solution_data] leaves
    [evalAntenna] as that same exception, after the excitation has been
    applied, and nothing is appended to the trace. *)
Theorem solver_failure_propagates hfss setup N_samples x ev tp w v e :
  excitation w x v ->
  analyze setup (variables (excited w x v)) = Raise e \/
  (analyze setup (variables (excited w x v)) = Ret tt /\
   get_solution_data hfss (variables (excited w x v)) = Raise e) ->
  evalAntenna hfss setup N_samples x ev tp w = (Raise e, excited w x v) /\
  forall l tr, lists w !! l = Some tr ->
    lists (excited w x v) !! l = Some tr.
Proof.
  intros Hx Hfail. split; [|intros l tr; apply excited_trace].
  rewrite (evalAntenna_excited _ _ _ _ _ _ _ _ Hx).
  unfold solve_and_score, bind, run_analyze, run_get_solution_data.
  destruct Hfail as [-> | [-> ->]]; done.
Qed.

(** extra X4: the fallback pattern is sized by [N_samples], not by the
    target: when [data_magnitude] raises and [N_samples] differs from the
    target's length (neither being one), the scoring inside [evalAntenna]
    raises [ValueError] instead of degrading. *)
Theorem fallback_needs_matching_count hfss setup N_samples x ev tp w v sd e :
  excitation w x v -> answers hfss setup w x v sd ->
  data_magnitude sd = Raise e ->
  N_samples <> length tp -> N_samples <> 1 -> length tp <> 1 ->
  evalAntenna hfss setup N_samples x (Some ev) (Some tp) w =
  (Raise ValueError, excited w x v).
Proof.
  intros Hx [Ha Hq] He Hne Hn Ht.
  rewrite (evalAntenna_excited _ _ _ _ _ _ _ _ Hx).
  eapply solve_and_score_mismatch; [done..|].
  unfold observed. rewrite He. apply np_sub_mismatch; [|  |done];
    unfold np_zeros; by rewrite length_replicate.
Qed.

Lemma sum_squares_nonneg d : (0 <= sum_squares d)%R.
Proof.
  induction d as [|a d IH]; unfold sum_squares in *; simpl; [lra|nra].
Qed.

Lemma sum_squares_zero d :
  sum_squares d = 0%R -> Forall (fun a => a = 0%R) d.
Proof.
  induction d as [|a d IH]; [constructor|].
  unfold sum_squares in *; simpl. intros H.
  pose proof (sum_squares_nonneg d) as Hd. unfold sum_squares in Hd.
  constructor; [nra|]. apply IH. nra.
Qed.

Lemma zip_minus_zero a : forall b,
  length a = length b ->
  Forall (fun d => d = 0%R) (zip_with Rminus a b) -> a = b.
Proof.
  induction a as [|x a IH]; intros [|y b] Hlen H; try done.
  simpl in *. apply Forall_cons in H as [Hxy H].
  f_equal; [lra|]. apply IH; [lia|done].
Qed.

Lemma zip_minus_self a : Forall (fun d => d = 0%R) (zip_with Rminus a a).
Proof. induction a; simpl; constructor; [lra|done]. Qed.

Lemma sum_squares_all_zero d :
  Forall (fun a => a = 0%R) d -> sum_squares d = 0%R.
Proof.
  induction 1 as [|a d -> _ IH]; unfold sum_squares in *; simpl; [done|].
  rewrite IH. lra.
Qed.

(** extra X5: with observed and target of equal length the score is never
    negative, and it is zero exactly when the observed pattern equals
    the target, sample for sample. *)
Theorem score_zero_iff_match hfss setup x w v sd ev tr tp :
  excitation w x v -> answers hfss setup w x v sd ->
  lists w !! ev = Some tr ->
  length (observed (length tp) sd) = length tp ->
  exists err w',
    error_function hfss setup (length tp) ev tp x w = (Ret err, w') /\
    (0 <= err)%R /\
    (err = 0%R <-> observed (length tp) sd = tp).
Proof.
  intros Hx Hans Htr Hlen. do 2 eexists.
  erewrite error_function_returns; [|done..|by apply np_sub_aligned].
  split; [done|]. unfold np_linalg_norm.
  split; [apply sqrt_pos|]. split.
  - intros H0. apply zip_minus_zero; [done|]. apply sum_squares_zero.
    apply sqrt_eq_0; [apply sum_squares_nonneg|done].
  - intros ->. rewrite sum_squares_all_zero by apply zip_minus_self.
    apply sqrt_0.
Qed.

Lemma clamp_idem a : clamp (clamp a) = clamp a.
Proof.
  destruct (Rlt_dec (Rabs a) floor_eps) as [Hlt|Hge].
  - rewrite (clamp_below a Hlt). apply clamp_above.
    unfold floor_eps. rewrite Rabs_right; lra.
  - rewrite (clamp_above a) by lra. apply clamp_above. lra.
Qed.

Lemma floored_idem v : length v = 10 -> floored (floored v) = floored v.
Proof.
  intros Hlen. unfold floored at 1 3.
  assert (H5 : length (take 5 v) = 5) by (rewrite length_take; lia).
  unfold floored.
  rewrite take_app_length' by done. rewrite drop_app_length' by done.
  f_equal. rewrite <- list_fmap_compose. apply list_fmap_ext.
  intros i a _. apply clamp_idem.
Qed.

(** extra X6: a second call on the same vector issues the very same ten
    assignments as the first: the floor written into an array by the
    first call is a fixed point of the second. *)
Theorem repeated_call_same_assignments hfss setup N_samples x ev tp w v :
  excitation w x v -> (forall l, x = PyList l -> ev <> Some l) ->
  let cmds := excitation_commands (take 5 v) (clamp <$> drop 5 v) in
  let w1 := (evalAntenna hfss setup N_samples x ev tp w).2 in
  let w2 := (evalAntenna hfss setup N_samples x ev tp w1).2 in
  variables w1 = variables w ++ cmds /\
  variables w2 = (variables w ++ cmds) ++ cmds /\
  contents w2 x = contents w1 x.
Proof.
  intros Hx Hne cmds w1 w2.
  assert (Hv1 : variables w1 = variables w ++ cmds)
    by (by apply evalAntenna_variables).
  destruct x as [l|l o n].
  - assert (Hx1 : excitation w1 (PyList l) v).
    { split; [|apply Hx]. apply evalAntenna_keeps_list; auto. }
    split; [done|]. split.
    + unfold w2. rewrite (evalAntenna_variables _ _ _ _ _ _ _ _ Hx1).
      by rewrite Hv1.
    + unfold w2. rewrite (evalAntenna_keeps_list _ _ _ _ _ _ _ _ Hx1) by auto.
      symmetry. apply Hx1.
  - assert (Hx1 : excitation w1 (NdArray l o n) (floored v)).
    { split; [by apply evalAntenna_floors_array|].
      apply floored_length, Hx. }
    split; [done|]. split.
    + unfold w2. rewrite (evalAntenna_variables _ _ _ _ _ _ _ _ Hx1), Hv1.
      f_equal. unfold cmds. destruct Hx as [_ Hlen].
      assert (H5 : length (take 5 v) = 5) by (rewrite length_take; lia).
      unfold floored. rewrite take_app_length' by done.
      rewrite drop_app_length' by done.
      f_equal. rewrite <- list_fmap_compose. apply list_fmap_ext.
      intros i a _. apply clamp_idem.
    + unfold w2. rewrite (evalAntenna_floors_array _ _ _ _ _ _ _ _ _ _ Hx1).
      destruct Hx1 as [-> _]. f_equal. apply floored_idem, Hx.
Qed.

(** extra X7: the iteration callback only reads: it issues no solver
    command, leaves every array buffer alone, and every sequence that
    showed a value before shows the same value after. *)
Theorem callback_only_reads array_size x w :
  variables (itter_callback array_size x w).2 = variables w /\
  arrays (itter_callback array_size x w).2 = arrays w /\
  forall s v, contents w s = Some v ->
    contents (itter_callback array_size x w).2 s = Some v.
Proof.
  destruct x as [l|l o n]; [|done].
  destruct (lists w !! l) as [u|] eqn:Hl.
  - assert (itter_callback array_size (PyList l) w =
            (Ret tt,
             set_lists
               (lists w ++ [take (array_size - 0) (drop 0 u);
                            take (length u - array_size) (drop array_size u)])
               w)) as ->.
    { unfold itter_callback, bind, slice. rewrite Hl.
      unfold set_lists at 1 2 3. simpl lists.
      rewrite lookup_app_l by (by eapply lookup_lt_Some). rewrite Hl.
      unfold ret, set_lists. simpl. by rewrite <- app_assoc. }
    split; [done|]. split; [done|].
    intros [l'|l' o' n'] v; simpl; [|done].
    intros H. by apply lookup_app_l_Some.
  - assert (itter_callback array_size (PyList l) w = (Raise TypeError, w))
      as ->; [|done].
    unfold itter_callback, bind, slice. by rewrite Hl.
Qed.





(** On an empty target the driver raises [ValueError] at the
    normalisation: no trace is allocated, no start vector built, the
    minimiser is not called and the store is as it was. *)
Remark empty_target_is_rejected hfss setup maxiter w :
  optimize_antenna_array hfss setup [] maxiter w = (Raise ValueError, w).
Proof. reflexivity. Qed.

(** ** Vectors that are too short *)

Lemma excite_element_list_stop L ps qs i arr vars :
  qs !! i = None ->
  excite_element (PyList (length L)) (PyList (S (length L))) i
    (World (L ++ [ps; qs]) arr vars) =
  (Raise IndexError, World (L ++ [ps; qs]) arr vars).
Proof.
  intros H. unfold excite_element, bind, getitem; simpl.
  by rewrite lookup_fresh_snd, H.
Qed.

Lemma short_loop_list L ps arr k :
  (forall i, i < k -> is_Some (ps !! i)) ->
  forall n j qs vars,
    length qs = k -> j <= k -> k < j + n ->
    exists W,
      for_each (seq j n)
        (excite_element (PyList (length L)) (PyList (S (length L))))
        (World (L ++ [ps; qs]) arr vars) = (Raise IndexError, W) /\
      length (variables W) = length vars + 2 * (k - j).
Proof.
  intros Hps. induction n as [|n IH]; intros j qs vars Hk Hj Hn; [lia|].
  cbn [seq for_each]. destruct (decide (j = k)) as [->|Hjk].
  - erewrite bind_stop
      by (apply excite_element_list_stop, lookup_ge_None; lia).
    eexists. split; [done|]. simpl. lia.
  - destruct (Hps j) as [p Hp]; [lia|].
    destruct (lookup_lt_is_Some_2 qs j) as [a Ha]; [lia|].
    erewrite bind_step by (by eapply excite_element_list).
    destruct (IH (S j) (<[j := clamp a]> qs)
                (vars ++ element_commands j p (clamp a)))
      as (W & HW & Hlen); [by rewrite length_insert|lia|lia|].
    exists W. split; [done|].
    rewrite Hlen, length_app. simpl. lia.
Qed.

Lemma excite_element_array_gen L A l op np oa na b i p a vars :
  i < np -> i < na -> A !! l = Some b ->
  b !! (op + i) = Some p -> b !! (oa + i) = Some a -> op <> oa ->
  excite_element (NdArray l op np) (NdArray l oa na) i (World L A vars) =
  (Ret tt, World L (<[l := <[oa + i := clamp a]> b]> A)
                 (vars ++ element_commands i p (clamp a))).
Proof.
  intros Hip Hia Hb Hp Ha Hne.
  assert (Hl : l < length A) by (by eapply lookup_lt_Some).
  assert (Hn : oa + i < length b) by (by eapply lookup_lt_Some).
  unfold excite_element, bind, getitem, clamp; simpl.
  rewrite Hb. destruct (decide (i < na)); [|lia]. rewrite Ha.
  destruct (Rlt_dec (Rabs a) floor_eps) as [Hlt|Hge]; simpl.
  - rewrite Hb.
    destruct (decide (i < na /\ oa + i < length b)); [|lia].
    unfold set_arrays; simpl.
    rewrite list_lookup_insert_eq by done.
    destruct (decide (i < np)); [|lia].
    rewrite list_lookup_insert_ne by lia. rewrite Hp; simpl.
    rewrite list_lookup_insert_eq by done.
    destruct (decide (i < na)); [|lia].
    rewrite list_lookup_insert_eq by done.
    unfold SetVariableValue, element_commands; simpl.
    by rewrite <- app_assoc.
  - rewrite Hb. destruct (decide (i < np)); [|lia]. rewrite Hp; simpl.
    rewrite Hb. destruct (decide (i < na)); [|lia]. rewrite Ha.
    unfold SetVariableValue, element_commands; simpl.
    rewrite (list_insert_id b) by done.
    rewrite list_insert_id by done.
    by rewrite <- app_assoc.
Qed.

Lemma excite_element_array_stop L A l op np oa na b i vars :
  ~ i < na -> A !! l = Some b ->
  excite_element (NdArray l op np) (NdArray l oa na) i (World L A vars) =
  (Raise IndexError, World L A vars).
Proof.
  intros Hi Hb. unfold excite_element, bind, getitem; simpl.
  rewrite Hb. by destruct (decide (i < na)).
Qed.

Lemma short_loop_array L l op np oa na size :
  na <= np -> op + np <= size -> oa + na <= size -> (0 < na -> op <> oa) ->
  forall n j A b vars,
    A !! l = Some b -> length b = size -> j <= na -> na < j + n ->
    exists W,
      for_each (seq j n) (excite_element (NdArray l op np) (NdArray l oa na))
        (World L A vars) = (Raise IndexError, W) /\
      length (variables W) = length vars + 2 * (na - j).
Proof.
  intros Hnp Hop Hoa Hne.
  induction n as [|n IH]; intros j A b vars Hb Hsize Hj Hn; [lia|].
  cbn [seq for_each]. destruct (decide (j = na)) as [->|Hjk].
  - erewrite bind_stop by (eapply excite_element_array_stop; [lia|done]).
    eexists. split; [done|]. simpl. lia.
  - destruct (lookup_lt_is_Some_2 b (op + j)) as [p Hp]; [lia|].
    destruct (lookup_lt_is_Some_2 b (oa + j)) as [a Ha]; [lia|].
    erewrite bind_step
      by (eapply excite_element_array_gen; [| |done..|]; try lia;
          apply Hne; lia).
    edestruct (IH (S j)) as (W & HW & Hlen); [|by rewrite length_insert|lia|lia|].
    { apply list_lookup_insert_eq. by eapply lookup_lt_Some. }
    exists W. split; [done|].
    rewrite Hlen, length_app. simpl. lia.
Qed.

(** extra X10: a vector of fewer than ten entries makes [evalAntenna]
    raise [IndexError] at the first amplitude it cannot read, whatever
    the solver would have answered; by then two assignments have gone
    out for every amplitude that was there. *)
Theorem short_vector_raises hfss setup N_samples x ev tp w v :
  contents w x = Some v -> length v < 10 ->
  exists w',
    evalAntenna hfss setup N_samples x ev tp w = (Raise IndexError, w') /\
    length (variables w') = length (variables w) + 2 * (length v - 5).
Proof.
  intros Hx Hlen. rewrite evalAntenna_unfold.
  destruct x as [l|l o n]; simpl in Hx.
  - unfold bind at 1. unfold slice at 1. rewrite Hx.
    unfold bind at 1. unfold slice at 1. unfold set_lists at 1 2. simpl lists.
    rewrite lookup_app_l by (by eapply lookup_lt_Some). rewrite Hx.
    unfold set_lists. cbn [lists arrays variables Nat.sub drop].
    rewrite <- app_assoc. cbn [app].
    rewrite length_app. cbn [length]. rewrite Nat.add_1_r.
    destruct (short_loop_list (lists w) (take 5 v) (arrays w) (length v - 5))
      with (n := 5) (j := 0) (qs := take (length v - 5) (drop 5 v))
           (vars := variables w) as (W & HW & HlenW).
    + intros i Hi. apply lookup_lt_is_Some_2. rewrite length_take. lia.
    + rewrite length_take, length_drop. lia.
    + lia.
    + lia.
    + exists W. unfold for_range. erewrite bind_stop by done.
      split; [done|]. rewrite HlenW. lia.
  - destruct (arrays w !! l) as [b|] eqn:Hb; [|discriminate].
    destruct (decide (o + n <= length b)) as [Hn|]; [|discriminate].
    injection Hx as Hv.
    assert (length v = n) as Hvn.
    { rewrite <- Hv, length_take, length_drop. lia. }
    unfold bind at 1. unfold slice at 1. unfold ret at 1.
    unfold bind at 1. unfold slice at 1. unfold ret at 1.
    destruct w as [L A vars]; simpl in *.
    destruct (short_loop_array L l (o + 0 `min` n) (5 `min` n - 0 `min` n)
                (o + 5 `min` n) (n - 5 `min` n) (length b))
      with (n := 5) (j := 0) (A := A) (b := b) (vars := vars)
      as (W & HW & HlenW); try done; try lia.
    unfold for_range. erewrite bind_stop by done.
    exists W. split; [done|]. rewrite HlenW. lia.
Qed.

(** ** What the driver hands back *)

Lemma array_halves w l o n v :
  excitation w (NdArray l o n) v ->
  n = 10 /\
  contents w (NdArray l o 5) = Some (take 5 v) /\
  contents w (NdArray l (o + 5) 5) = Some (drop 5 v).
Proof.
  intros [H Hlen]. simpl in *.
  destruct (arrays w !! l) as [b|] eqn:Hb; [|done].
  destruct (decide (o + n <= length b)) as [Hn|]; [|done].
  injection H as Hv.
  assert (n = 10) as ->.
  { rewrite <- Hv, length_take, length_drop in Hlen. lia. }
  split; [done|].
  destruct (decide (o + 5 <= length b)); [|lia].
  destruct (decide (o + 5 + 5 <= length b)); [|lia].
  rewrite <- Hv. split; f_equal.
  - by rewrite take_take.
  - by rewrite <- drop_drop, take_drop_commute.
Qed.

Lemma driver_result hfss setup t t' maxiter w l o n w3 v :
  normalize_target t = Ret t' ->
  minimize
    (error_function hfss setup (length t') (length (lists w)) t')
    (NdArray (length (arrays w)) 0 10) maxiter (itter_callback 5)
    (World (lists w ++ [[]])
           (arrays w ++ [af_opt_phases_deg ++ af_opt_amps_v])
           (variables w)) = (Ret (NdArray l o n), w3) ->
  excitation w3 (NdArray l o n) v ->
  optimize_antenna_array hfss setup t maxiter w =
    (Ret (NdArray l o 5, NdArray l (o + 5) 5, length (lists w)), w3) /\
  contents w3 (NdArray l o 5) = Some (take 5 v) /\
  contents w3 (NdArray l (o + 5) 5) = Some (drop 5 v).
Proof.
  intros Hn Hmin Hx.
  destruct (array_halves _ _ _ _ _ Hx) as (-> & Ha & Hp).
  split; [|done].
  unfold optimize_antenna_array. unfold bind at 1, lift at 1. rewrite Hn.
  unfold bind at 1, new_list at 1, set_lists at 1.
  unfold bind at 1, new_array at 1, set_arrays at 1.
  cbn [lists arrays variables].
  change (length (af_opt_phases_deg ++ af_opt_amps_v)) with 10.
  unfold bind at 1. rewrite Hmin.
  unfold bind, slice, ret. cbn [Nat.min Nat.sub]. by rewrite Nat.add_0_r.
Qed.

(** ** Setting the session up *)

Lemma kill_each_frame procs : forall killed s,
  Host.files (Host.kill_each procs killed s).2 = Host.files s /\
  Host.open_desktops (Host.kill_each procs killed s).2 = Host.open_desktops s.
Proof.
  induction procs as [|p procs IH]; intros killed s; [done|]. simpl.
  destruct (Host.name p) as [n|]; [|done].
  destruct (Host.any_aedt_name (Host.lower n)); [|apply IH].
  destruct (Host.on_kill p); try apply IH.
  unfold Host.bind, Host.kill, Host.print. simpl.
  destruct (IH true (Host.State (Host.files s)
              (Host.console s ++
               ["Killed process: " +:+ n +:+ " (PID: "
                +:+ pretty (Host.pid p) +:+ ")"])
              (Host.killed_pids s ++ [Host.pid p]) (Host.open_desktops s)))
    as [Hf Hd].
  done.
Qed.

Lemma struck_readable p n :
  Host.name p = Some n ->
  struck p = Host.any_aedt_name (Host.lower n) &&
             match Host.on_kill p with Host.Dies => true | _ => false end.
Proof. intros H. unfold struck, targeted. by rewrite H. Qed.

Lemma kill_each_readable procs :
  Forall readable procs ->
  forall killed s, exists lines,
    Host.kill_each procs killed s =
      (Host.Ok (killed || existsb struck procs),
       Host.State (Host.files s) (Host.console s ++ lines)
         (Host.killed_pids s ++
          (Host.pid <$> filter (fun p => struck p = true) procs))
         (Host.open_desktops s)) /\
    length lines = length (filter (fun p => struck p = true) procs) /\
    Forall (fun line => exists rest, line = "Killed process: " +:+ rest) lines.
Proof.
  induction 1 as [|p procs [n Hn] _ IH]; intros killed s.
  - exists []. simpl. rewrite !app_nil_r, orb_false_r. by destruct s.
  - simpl. rewrite Hn. pose proof (struck_readable p n Hn) as Hs.
    destruct (Host.any_aedt_name (Host.lower n)); simpl in Hs.
    + destruct (Host.on_kill p) eqn:Hk.
      * unfold Host.bind at 1, Host.kill at 1.
        unfold Host.bind at 1, Host.print at 1. simpl.
        edestruct IH as (lines & -> & Hlen & Hall). simpl.
        eexists (_ :: lines). rewrite filter_cons_True by done.
        rewrite Hs, orb_true_r. simpl. rewrite <- !app_assoc. simpl.
        split; [done|]. split; [by rewrite Hlen|].
        constructor; [|done]. by eexists.
      * destruct (IH killed s) as (lines & -> & Hlen & Hall).
        exists lines. rewrite filter_cons_False by (rewrite Hs; done).
        by rewrite Hs.
      * destruct (IH killed s) as (lines & -> & Hlen & Hall).
        exists lines. rewrite filter_cons_False by (rewrite Hs; done).
        by rewrite Hs.
      * destruct (IH killed s) as (lines & -> & Hlen & Hall).
        exists lines. rewrite filter_cons_False by (rewrite Hs; done).
        by rewrite Hs.
    + destruct (IH killed s) as (lines & -> & Hlen & Hall).
      exists lines. rewrite filter_cons_False by (rewrite Hs; done).
      by rewrite Hs.
Qed.

Lemma kill_each_unreadable before p after :
  Forall readable before -> Host.name p = None ->
  forall killed s, exists lines,
    Host.kill_each (before ++ p :: after) killed s =
      (Host.Err Host.AttributeError,
       Host.State (Host.files s) (Host.console s ++ lines)
         (Host.killed_pids s ++
          (Host.pid <$> filter (fun p => struck p = true) before))
         (Host.open_desktops s)).
Proof.
  intros Hb Hp. induction Hb as [|q before [n Hn] _ IH]; intros killed s.
  - exists []. simpl. rewrite Hp, !app_nil_r. by destruct s.
  - simpl. rewrite Hn. pose proof (struck_readable q n Hn) as Hs.
    destruct (Host.any_aedt_name (Host.lower n)); simpl in Hs.
    + destruct (Host.on_kill q) eqn:Hk.
      * unfold Host.bind at 1, Host.kill at 1.
        unfold Host.bind at 1, Host.print at 1. simpl.
        edestruct IH as (lines & ->). simpl.
        eexists (_ :: lines). rewrite filter_cons_True by done.
        simpl. by rewrite <- !app_assoc.
      * destruct (IH killed s) as (lines & ->).
        exists lines. by rewrite filter_cons_False by (rewrite Hs; done).
      * destruct (IH killed s) as (lines & ->).
        exists lines. by rewrite filter_cons_False by (rewrite Hs; done).
      * destruct (IH killed s) as (lines & ->).
        exists lines. by rewrite filter_cons_False by (rewrite Hs; done).
    + destruct (IH killed s) as (lines & ->).
      exists lines. by rewrite filter_cons_False by (rewrite Hs; done).
Qed.

(** extra X12: when every process name is readable, the kill loop ends
    normally and has killed, in table order, exactly the processes whose
    lower-cased name contains one of the three executable names and
    whose [kill] went through; it prints one line per kill, and
    "Starting AEDT processes." exactly when it killed none; files and
    desktops are not touched. *)
Theorem kill_strikes_exactly m s :
  Forall readable (Host.processes m) ->
  exists lines s',
    Host.kill_aedt_processes m s = (Host.Ok tt, s') /\
    Host.killed_pids s' =
      Host.killed_pids s ++
      (Host.pid <$> filter (fun p => struck p = true) (Host.processes m)) /\
    Host.console s' =
      Host.console s ++ lines ++
      (if existsb struck (Host.processes m) then []
       else ["Starting AEDT processes."]) /\
    length lines =
      length (filter (fun p => struck p = true) (Host.processes m)) /\
    Forall (fun line => exists rest, line = "Killed process: " +:+ rest) lines /\
    Host.files s' = Host.files s /\
    Host.open_desktops s' = Host.open_desktops s.
Proof.
  intros Hr.
  destruct (kill_each_readable _ Hr false s) as (lines & Hk & Hlen & Hall).
  exists lines. unfold Host.kill_aedt_processes, Host.bind. rewrite Hk.
  simpl. destruct (existsb struck (Host.processes m)); simpl.
  - eexists. split; [done|]. simpl. by rewrite app_nil_r.
  - eexists. split; [done|]. simpl. by rewrite <- app_assoc.
Qed.

(** extra X13: a process whose name could not be read stops the set-up
    with [AttributeError]: the processes listed before it have been dealt
    with, those after it are never looked at, the lock file is not
    removed and no desktop is started. *)
Theorem unreadable_name_aborts m s before p after :
  Host.processes m = before ++ p :: after ->
  Forall readable before -> Host.name p = None ->
  exists s',
    Host.kill_aedt_processes m s = (Host.Err Host.AttributeError, s') /\
    Host.initHFSSsetup m s = (Host.Err Host.AttributeError, s') /\
    Host.killed_pids s' =
      Host.killed_pids s ++
      (Host.pid <$> filter (fun p => struck p = true) before) /\
    Host.files s' = Host.files s /\
    Host.open_desktops s' = Host.open_desktops s.
Proof.
  intros Hm Hb Hp.
  destruct (kill_each_unreadable before p after Hb Hp false s) as [lines Hk].
  eexists.
  assert (Hkill : Host.kill_aedt_processes m s =
                  (Host.Err Host.AttributeError,
                   Host.State (Host.files s) (Host.console s ++ lines)
                     (Host.killed_pids s ++
                      (Host.pid <$> filter (fun p => struck p = true) before))
                     (Host.open_desktops s))).
  { unfold Host.kill_aedt_processes, Host.bind. by rewrite Hm, Hk. }
  split; [done|]. split; [|done].
  unfold Host.initHFSSsetup, Host.bind at 1. by rewrite Hkill.
Qed.

Lemma kill_each_error procs : forall killed s e s',
  Host.kill_each procs killed s = (Host.Err e, s') -> e = Host.AttributeError.
Proof.
  induction procs as [|p procs IH]; intros killed s e s'; [done|]. simpl.
  destruct (Host.name p) as [n|]; [|by intros [= <- _]].
  destruct (Host.any_aedt_name _); [|apply IH].
  destruct (Host.on_kill p); apply IH.
Qed.

Lemma kill_aedt_processes_frame m s :
  Host.files (Host.kill_aedt_processes m s).2 = Host.files s /\
  Host.open_desktops (Host.kill_aedt_processes m s).2 = Host.open_desktops s.
Proof.
  unfold Host.kill_aedt_processes, Host.bind.
  pose proof (kill_each_frame (Host.processes m) false s) as Hf.
  destruct (Host.kill_each (Host.processes m) false s) as [[[]|e] s0];
    simpl in *; done.
Qed.

(** Every way [initHFSSsetup] can end, told from the lock file and from
    what launching the desktop gives. *)
Lemma initHFSSsetup_cases m s r s' :
  Host.initHFSSsetup m s = (r, s') ->
  (r = Host.Err Host.AttributeError /\
   ~ Forall readable (Host.processes m) /\
   Host.files s' = Host.files s /\
   Host.open_desktops s' = Host.open_desktops s) \/
  (Host.files s !! Host.lock_file_path = Some Host.Denied /\
   r = Host.Err (Host.PermissionError
         "Cannot remove lock file 'aedt\1D_Dipole_array_model_all.aedt.lock'. Close AEDT or check file permissions.") /\
   Host.files s' = Host.files s /\
   Host.open_desktops s' = Host.open_desktops s) \/
  (exists what,
     Host.files s !! Host.lock_file_path = Some (Host.Failing what) /\
     r = Host.Err (Host.Exception
           ("Failed to remove lock file 'aedt\1D_Dipole_array_model_all.aedt.lock': "
            +:+ what)) /\
     Host.files s' = Host.files s /\
     Host.open_desktops s' = Host.open_desktops s) \/
  ((Host.files s !! Host.lock_file_path = None \/
    Host.files s !! Host.lock_file_path = Some Host.Removable) /\
   Host.files s' = delete Host.lock_file_path (Host.files s) /\
   match Host.launch m "aedt\1D_Dipole_array_model_all.aedt" "arrayY5" with
   | inr what =>
       r = Host.Err (Host.LaunchError what) /\
       Host.open_desktops s' = Host.open_desktops s
   | inl d =>
       Host.open_desktops s' = S (Host.open_desktops s) /\
       if decide (Host.design_name d = "arrayY5")
       then r = Host.Ok (Host.session d, Host.get_setup d "Setup1")
       else r = Host.Err (Host.ValueError
                  "Design 'arrayY5' not found in project '1D_Dipole_array_model_all'.")
   end).
Proof.
  unfold Host.initHFSSsetup, Host.bind at 1.
  destruct (kill_aedt_processes_frame m s) as [Hf Hd].
  destruct (Host.kill_aedt_processes m s) as [[[]|e] s0] eqn:Hk;
    simpl in Hf, Hd.
  2:{ intros [= <- <-]. left.
      unfold Host.kill_aedt_processes, Host.bind in Hk.
      destruct (Host.kill_each _ _ _) as [[k|e0] s1] eqn:Hke.
      - destruct k; simpl in Hk; unfold Host.print, Host.ret in Hk; done.
      - injection Hk as <- <-. split; [f_equal; by eapply kill_each_error|].
        split; [|done]. intros Hr.
        destruct (kill_each_readable _ Hr false s) as (lines & Hok & _).
        congruence. }
  unfold Host.bind at 1, Host.os_path_exists at 1.
  change ("aedt\1D_Dipole_array_model_all.aedt" +:+ ".lock")
    with Host.lock_file_path.
  rewrite Hf.
  destruct (Host.files s !! Host.lock_file_path) as [o|] eqn:Hlock.
  - rewrite bool_decide_eq_true_2 by done.
    unfold Host.bind at 1, Host.remove_lock at 1.
    unfold Host.bind at 1, Host.os_remove at 1. rewrite Hf, Hlock.
    destruct o as [| |what].
    + unfold Host.print at 1. simpl.
      unfold Host.bind at 1, Host.start_desktop at 1. simpl.
      intros Hrest. right. right. right.
      split; [by right|].
      destruct (Host.launch m _ _) as [d|what].
      * unfold Host.bind, Host.print, Host.ret, Host.raise in Hrest.
        destruct (decide (Host.design_name d = "arrayY5"));
          injection Hrest as <- <-; simpl; rewrite ?Hf, ?Hd; done.
      * injection Hrest as <- <-. simpl. rewrite ?Hf, ?Hd. done.
    + intros [= <- <-]. right. left. done.
    + intros [= <- <-]. right. right. left. exists what. done.
  - rewrite bool_decide_eq_false_2 by (by intros [? ?]).
    unfold Host.bind at 1, Host.ret at 1.
    unfold Host.bind at 1, Host.start_desktop at 1.
    intros Hrest. right. right. right.
    split; [by left|]. rewrite delete_id by done.
    destruct (Host.launch m _ _) as [d|what].
    + unfold Host.bind, Host.print, Host.ret, Host.raise in Hrest.
      destruct (decide (Host.design_name d = "arrayY5"));
        injection Hrest as <- <-; simpl; rewrite ?Hf, ?Hd; done.
    + injection Hrest as <- <-. simpl. rewrite ?Hf, ?Hd. done.
Qed.


(** extra X15: with every process name readable, a lock file that
    [os.remove] refuses with [PermissionError] ends the set-up with a
    [PermissionError] carrying the advice to close AEDT, and any other
    failure of [os.remove] ends it with a plain [Exception] quoting the
    original message; in both cases the file is still there and no
    desktop has been started. *)
Theorem lock_removal_failures m s :
  Forall readable (Host.processes m) ->
  (Host.files s !! Host.lock_file_path = Some Host.Denied ->
   (Host.initHFSSsetup m s).1 =
     Host.Err (Host.PermissionError
       "Cannot remove lock file 'aedt\1D_Dipole_array_model_all.aedt.lock'. Close AEDT or check file permissions.")) /\
  (forall what,
     Host.files s !! Host.lock_file_path = Some (Host.Failing what) ->
     (Host.initHFSSsetup m s).1 =
       Host.Err (Host.Exception
         ("Failed to remove lock file 'aedt\1D_Dipole_array_model_all.aedt.lock': "
          +:+ what))) /\
  (Host.files s !! Host.lock_file_path <> None ->
   Host.files s !! Host.lock_file_path <> Some Host.Removable ->
   Host.files (Host.initHFSSsetup m s).2 = Host.files s /\
   Host.open_desktops (Host.initHFSSsetup m s).2 = Host.open_desktops s).
Proof.
  intros Hr.
  destruct (Host.initHFSSsetup m s) as [r s'] eqn:Hinit. simpl.
  destruct (initHFSSsetup_cases _ _ _ _ Hinit)
    as [(_ & Hbad & _)|[(Hl & -> & Hf & Hd)|[(what & Hl & -> & Hf & Hd)
       |([Hl|Hl] & _)]]]; try done; rewrite Hl; naive_solver.
Qed.

(** extra X16: with readable process names and a lock file that is
    absent or removable, launching a desktop whose design is not
    "arrayY5" ends the set-up with [ValueError] while that desktop stays
    open; with the right design the set-up returns the session and its
    "Setup1", one desktop open. *)
Theorem design_check_after_launch m s d :
  Forall readable (Host.processes m) ->
  Host.files s !! Host.lock_file_path = None \/
  Host.files s !! Host.lock_file_path = Some Host.Removable ->
  Host.launch m "aedt\1D_Dipole_array_model_all.aedt" "arrayY5" = inl d ->
  Host.open_desktops (Host.initHFSSsetup m s).2 = S (Host.open_desktops s) /\
  (Host.design_name d <> "arrayY5" ->
   (Host.initHFSSsetup m s).1 =
     Host.Err (Host.ValueError
       "Design 'arrayY5' not found in project '1D_Dipole_array_model_all'.")) /\
  (Host.design_name d = "arrayY5" ->
   (Host.initHFSSsetup m s).1 =
     Host.Ok (Host.session d, Host.get_setup d "Setup1")).
Proof.
  intros Hr Hlock Hlaunch.
  destruct (Host.initHFSSsetup m s) as [r s'] eqn:Hinit. simpl.
  destruct (initHFSSsetup_cases _ _ _ _ Hinit)
    as [(_ & Hbad & _)|[(Hl & _)|[(what & Hl & _)|(_ & _ & Hrest)]]];
    try done; try (destruct Hlock; congruence).
  rewrite Hlaunch in Hrest. destruct Hrest as [Hd Hres].
  split; [done|].
  destruct (decide (Host.design_name d = "arrayY5")); by split.
Qed.

Lemma initHFSSsetup_desktops m s r s' :
  Host.initHFSSsetup m s = (r, s') ->
  Host.open_desktops s' =
  match r with
  | Host.Ok _ | Host.Err (Host.ValueError _) => S (Host.open_desktops s)
  | Host.Err (Host.Core _) => 0
  | Host.Err _ => Host.open_desktops s
  end /\
  (forall e, r <> Host.Err (Host.Core e)).
Proof.
  intros Hinit.
  destruct (initHFSSsetup_cases _ _ _ _ Hinit)
    as [(-> & _ & _ & Hd)|[(_ & -> & _ & Hd)|[(what & _ & -> & _ & Hd)
       |(_ & _ & Hrest)]]]; try done.
  destruct (Host.launch m _ _) as [d|what].
  - destruct Hrest as [Hd Hres].
    destruct (decide (Host.design_name d = "arrayY5")); by subst r.
  - by destruct Hrest as [-> Hd].
Qed.

(** extra X17: the script releases the desktop only at its very end.
    When it completes, the number of open desktops is what it was; when
    the optimisation or the closing evaluation raises, or the design
    check fails, the desktop it started is left open. *)
Theorem desktop_released_only_on_success m h w r h' w' :
  main m h w = (r, h', w') ->
  Host.open_desktops h' =
  match r with
  | Host.Ok _ => Host.open_desktops h
  | Host.Err (Host.Core _) | Host.Err (Host.ValueError _) =>
      S (Host.open_desktops h)
  | Host.Err _ => Host.open_desktops h
  end.
Proof.
  unfold main.
  destruct (Host.initHFSSsetup m h) as [[[hfss setup]|e] h1] eqn:Hinit.
  - destruct (initHFSSsetup_desktops _ _ _ _ Hinit) as [Hd _]. simpl in Hd.
    destruct (optimize_antenna_array _ _ _ _ _) as [[[[a p0] ev]|e] w1].
    + destruct ((_ <- np_concatenate _ ;; _) w1) as [[g|e] w2].
      * intros [= <- <- <-]. simpl. by rewrite Hd.
      * by intros [= <- <- <-].
    + by intros [= <- <- <-].
  - destruct (initHFSSsetup_desktops _ _ _ _ Hinit) as [Hd Hcore].
    intros [= <- <- <-]. destruct e; try done. by destruct (Hcore e).
Qed.

(** extra X11: whatever minimiser is plugged in, when its [result.x] is
    an array holding ten entries [v], the driver returns two views of that
    very buffer and the trace it allocated: the first component shows
    [v[0:5]], the second [v[5:]]. *)
Theorem driver_returns_views hfss setup t t' maxiter w l o n w3 v :
  normalize_target t = Ret t' ->
  minimize
    (error_function hfss setup (length t') (length (lists w)) t')
    (NdArray (length (arrays w)) 0 10) maxiter (itter_callback 5)
    (World (lists w ++ [[]])
           (arrays w ++ [af_opt_phases_deg ++ af_opt_amps_v])
           (variables w)) = (Ret (NdArray l o n), w3) ->
  excitation w3 (NdArray l o n) v ->
  optimize_antenna_array hfss setup t maxiter w =
    (Ret (NdArray l o 5, NdArray l (o + 5) 5, length (lists w)), w3) /\
  contents w3 (NdArray l o 5) = Some (take 5 v) /\
  contents w3 (NdArray l (o + 5) 5) = Some (drop 5 v).
Proof. apply driver_result. Qed.

(** extra X18: a Python list passed to [evalAntenna] is read through
    copies: after the call, however it ended, the caller's list holds
    what it held. *)
Theorem list_argument_is_kept hfss setup N_samples l ev tp w v :
  excitation w (PyList l) v -> ev <> Some l ->
  contents (evalAntenna hfss setup N_samples (PyList l) ev tp w).2 (PyList l)
  = Some v.
Proof. apply evalAntenna_keeps_list. Qed.

(** extra X19: an array passed to [evalAntenna] is read through views:
    after the call, however it ended, its five phases are as they were
    and each of its five amplitudes is the floor [1e-3] where the
    magnitude was below it and the old value elsewhere. *)
Theorem array_argument_is_floored hfss setup N_samples l o n ev tp w v :
  excitation w (NdArray l o n) v ->
  exists v',
    contents (evalAntenna hfss setup N_samples (NdArray l o n) ev tp w).2
      (NdArray l o n) = Some v' /\
    take 5 v' = take 5 v /\ length v' = 10 /\
    forall i a, drop 5 v !! i = Some a ->
      ((Rabs a < floor_eps)%R -> drop 5 v' !! i = Some floor_eps) /\
      ((floor_eps <= Rabs a)%R -> drop 5 v' !! i = Some a).
Proof.
  intros Hx. exists (floored v).
  split; [by apply evalAntenna_floors_array|].
  destruct Hx as [_ Hlen].
  assert (H5 : length (take 5 v) = 5) by (rewrite length_take; lia).
  unfold floored. rewrite take_app_length', drop_app_length' by done.
  split; [done|]. split; [by apply floored_length|].
  intros i a Ha. rewrite list_lookup_fmap, Ha. simpl.
  split; intros Hcmp; f_equal; [by apply clamp_below | by apply clamp_above].
Qed.

(** extra X20: the closing evaluation of the script runs on the result
    with its halves exchanged.  The driver hands back [v[0:5]] under the
    name of the amplitudes and [v[5:]] under that of the phases, and the
    script concatenates them "phases first": the solver is given
    [v[5+i]] as [Phase_i] and the floored [v[i]] as [Amp_i].  The result
    array itself is not written to. *)
Theorem closing_evaluation_swaps_halves m h w hfss setup h1 t' l o n w3 v :
  Host.initHFSSsetup m h = (Host.Ok (hfss, setup), h1) ->
  normalize_target (band_target (np_linspace (-90) 90 37)) = Ret t' ->
  minimize
    (error_function hfss setup (length t') (length (lists w)) t')
    (NdArray (length (arrays w)) 0 10) 100 (itter_callback 5)
    (World (lists w ++ [[]])
           (arrays w ++ [af_opt_phases_deg ++ af_opt_amps_v])
           (variables w)) = (Ret (NdArray l o n), w3) ->
  excitation w3 (NdArray l o n) v ->
  exists r h' w',
    main m h w = (r, h', w') /\
    variables w' =
      variables w3 ++ excitation_commands (drop 5 v) (clamp <$> take 5 v) /\
    contents w' (NdArray l o n) = Some v.
Proof.
  intros Hinit Hn Hmin Hx.
  destruct (driver_result _ _ _ _ _ _ _ _ _ _ _ Hn Hmin Hx)
    as (Hopt & Ha & Hp).
  set (u := drop 5 v ++ take 5 v).
  set (k := length (arrays w3)).
  set (w4 := set_arrays (arrays w3 ++ [u]) w3).
  assert (Hlen : length v = 10) by apply Hx.
  assert (Hu : length u = 10).
  { unfold u. rewrite length_app, length_drop, length_take. lia. }
  assert (Hcat : np_concatenate [NdArray l (o + 5) 5; NdArray l o 5] w3 =
                 (Ret (NdArray k 0 10), w4)).
  { unfold np_concatenate. cbn [mapM]. rewrite Hp, Ha. simpl.
    unfold new_array. rewrite app_nil_r. fold u. by rewrite Hu. }
  assert (Hx4 : excitation w4 (NdArray k 0 10) u).
  { split; [|done]. unfold contents, w4, set_arrays. simpl.
    unfold k. rewrite list_lookup_middle by done.
    destruct (decide _) as [_|Hbad]; [|exfalso; apply Hbad; rewrite Hu; lia].
    rewrite drop_0, take_ge; [done|]. rewrite Hu. lia. }
  unfold main. rewrite Hinit, Hopt. unfold bind at 1. rewrite Hcat.
  pose proof (evalAntenna_variables hfss setup 37 _ None None _ _ Hx4) as Hvars.
  pose proof (evalAntenna_excited hfss setup 37 _ None None _ _ Hx4) as Hex.
  pose proof (solve_and_score_frame hfss setup 37 None None
                (excited w4 (NdArray k 0 10) u)) as [_ Harr].
  rewrite <- Hex in Harr.
  assert (Hkeep : contents (evalAntenna hfss setup 37 (NdArray k 0 10)
                              None None w4).2 (NdArray l o n) = Some v).
  { destruct Hx as [Hc _]. unfold contents in *. rewrite Harr.
    unfold excited. simpl.
    destruct (arrays w3 !! l) as [b|] eqn:Hb; [|done].
    assert (l < k) by (by eapply lookup_lt_Some).
    unfold k. rewrite list_lookup_middle by done. cbn [arrays].
    rewrite list_lookup_insert_ne by (unfold k in *; lia).
    by rewrite lookup_app_l, Hb by done. }
  assert (Htake : take 5 u = drop 5 v).
  { unfold u. rewrite take_app_length'; [done|]. rewrite length_drop. lia. }
  assert (Hdrop : drop 5 u = take 5 v).
  { unfold u. rewrite drop_app_length'; [done|]. rewrite length_drop. lia. }
  rewrite Htake, Hdrop in Hvars.
  destruct (evalAntenna hfss setup 37 (NdArray k 0 10) None None w4)
    as [[g|e] w5]; simpl in *; do 3 eexists; (split; [done|]); by split.
Qed.

(** ** Vectors that are too long *)

Lemma excitation_loop_list_long L arr vars p0 p1 p2 p3 p4 a0 a1 a2 a3 a4 rest :
  for_range 5 (excite_element (PyList (length L)) (PyList (S (length L))))
    (World (L ++ [[p0; p1; p2; p3; p4]; a0 :: a1 :: a2 :: a3 :: a4 :: rest])
           arr vars) =
  (Ret tt,
   World (L ++ [[p0; p1; p2; p3; p4];
                (clamp <$> [a0; a1; a2; a3; a4]) ++ rest]) arr
         (vars ++ excitation_commands [p0; p1; p2; p3; p4]
                    (clamp <$> [a0; a1; a2; a3; a4]))).
Proof.
  unfold for_range. cbn [seq for_each].
  do 5 (erewrite bind_step by (apply excite_element_list; reflexivity);
        cbn [insert list_insert]).
  unfold ret, excitation_commands.
  cbn [fmap list_fmap zip zip_with imap concat fst snd app].
  by rewrite <- !app_assoc.
Qed.

Lemma excite_element_window_gen L A l pre mid post na i p a vars :
  i < 5 -> i < na -> l < length A ->
  mid !! i = Some p -> mid !! (5 + i) = Some a ->
  excite_element (NdArray l (length pre) 5) (NdArray l (length pre + 5) na) i
    (World L (<[l := pre ++ mid ++ post]> A) vars) =
  (Ret tt, World L (<[l := pre ++ <[5 + i := clamp a]> mid ++ post]> A)
                 (vars ++ element_commands i p (clamp a))).
Proof.
  intros Hi Hna Hl Hp Ha.
  erewrite excite_element_array_gen;
    [|done|done| |by apply lookup_window| |lia].
  - rewrite list_insert_insert_eq.
    replace (length pre + 5 + i) with (length pre + (5 + i)) by lia.
    rewrite insert_window; [done|by eapply lookup_lt_Some].
  - by rewrite list_lookup_insert_eq.
  - replace (length pre + 5 + i) with (length pre + (5 + i)) by lia.
    by apply lookup_window.
Qed.

Lemma excitation_loop_array_long L A l pre post vars na
    p0 p1 p2 p3 p4 a0 a1 a2 a3 a4 :
  l < length A -> 5 <= na ->
  for_range 5
    (excite_element (NdArray l (length pre) 5) (NdArray l (length pre + 5) na))
    (World L (<[l := pre ++ [p0; p1; p2; p3; p4; a0; a1; a2; a3; a4] ++ post]> A)
           vars) =
  (Ret tt,
   World L
     (<[l := pre ++ ([p0; p1; p2; p3; p4] ++ (clamp <$> [a0; a1; a2; a3; a4]))
                 ++ post]> A)
     (vars ++ excitation_commands [p0; p1; p2; p3; p4]
                (clamp <$> [a0; a1; a2; a3; a4]))).
Proof.
  intros Hl Hna. unfold for_range. cbn [seq for_each].
  do 5 (erewrite bind_step
          by (apply excite_element_window_gen; [lia|lia|done|reflexivity..]);
        cbn [insert list_insert Nat.add]).
  unfold ret, excitation_commands.
  cbn [fmap list_fmap zip zip_with imap concat fst snd app].
  by rewrite <- !app_assoc.
Qed.

(** extra X9: there is no upper bound check.  On a vector of more than
    ten entries [evalAntenna] reads the first five as phases and the next
    five as amplitudes, issues the same ten assignments as for those
    ten entries alone, and goes on to the solve. *)
Theorem long_vector_tail_ignored hfss setup N_samples x ev tp w v :
  contents w x = Some v -> 10 <= length v ->
  exists w1,
    evalAntenna hfss setup N_samples x ev tp w =
      solve_and_score hfss setup N_samples ev tp w1 /\
    variables w1 =
      variables w ++
      excitation_commands (take 5 v) (clamp <$> take 5 (drop 5 v)).
Proof.
  intros Hx Hlen. rewrite evalAntenna_unfold.
  destruct x as [l|l o n]; simpl in Hx.
  - do 10 (destruct v as [|? v]; [simpl in Hlen; lia|]).
    unfold bind at 1. unfold slice at 1. rewrite Hx.
    unfold bind at 1. unfold slice at 1. unfold set_lists at 1 2. simpl lists.
    rewrite lookup_app_l by (by eapply lookup_lt_Some). rewrite Hx.
    unfold set_lists. cbn [lists arrays variables length Nat.sub take drop].
    rewrite take_ge by done.
    rewrite <- app_assoc. cbn [app].
    rewrite length_app. cbn [length]. rewrite Nat.add_1_r.
    erewrite bind_step by apply excitation_loop_list_long.
    eexists. split; [done|]. reflexivity.
  - destruct (arrays w !! l) as [b|] eqn:Hb; [|discriminate].
    destruct (decide (o + n <= length b)) as [Hn|]; [|discriminate].
    injection Hx as Hv.
    assert (Hvn : length v = n).
    { rewrite <- Hv, length_take, length_drop. lia. }
    assert (Hsplit : b = take o b ++ take 10 v ++ (drop 10 v ++ drop (o + n) b)).
    { rewrite (app_assoc (take 10 v)), (take_drop 10 v), <- Hv.
      rewrite <- (take_drop o b) at 1. f_equal.
      rewrite <- (take_drop n (drop o b)) at 1. f_equal.
      by rewrite drop_drop. }
    assert (Ho : length (take o b) = o) by (rewrite length_take; lia).
    assert (Hl : l < length (arrays w)) by (by eapply lookup_lt_Some).
    clear Hv. subst n.
    destruct v as [|p0 [|p1 [|p2 [|p3 [|p4 [|a0 [|a1 [|a2 [|a3 [|a4 rest]]]]]]]]]];
      try (simpl in Hlen; lia).
    unfold bind at 1. unfold slice at 1. unfold ret at 1.
    unfold bind at 1. unfold slice at 1. unfold ret at 1.
    cbn [length Nat.min Nat.sub]. rewrite Nat.add_0_r.
    destruct w as [L A vars]; simpl in Hb, Hl |- *.
    change (take 10 (p0 :: p1 :: p2 :: p3 :: p4 :: a0 :: a1 :: a2 :: a3
                        :: a4 :: rest))
      with [p0; p1; p2; p3; p4; a0; a1; a2; a3; a4] in Hsplit.
    change (drop 10 (p0 :: p1 :: p2 :: p3 :: p4 :: a0 :: a1 :: a2 :: a3
                        :: a4 :: rest)) with rest in Hsplit.
    pose proof (excitation_loop_array_long L A l (take o b)
                  (rest ++ drop (o + length (p0 :: p1 :: p2 :: p3 :: p4 :: a0
                                   :: a1 :: a2 :: a3 :: a4 :: rest)) b)
                  vars (S (S (S (S (S (length rest))))))
                  p0 p1 p2 p3 p4 a0 a1 a2 a3 a4 Hl ltac:(lia)) as Hloop.
    rewrite Ho, <- Hsplit, (list_insert_id A l b) in Hloop by done.
    erewrite bind_step by exact Hloop.
    eexists. split; [done|]. reflexivity.
Qed.

End Optimizer.

(** ** Runs on concrete inputs *)

Lemma small_amp_excitation :
  excitation store_small_amp x_small_amp small_amp_vector.
Proof. split; reflexivity. Qed.

Lemma small_amp_floored :
  floored small_amp_vector = [0; 0; 0; 0; 0; / 1000; 1; 1; 1; 1]%R.
Proof.
  unfold floored, small_amp_vector. cbn [take drop fmap list_fmap app].
  rewrite (clamp_below 0.0005) by (unfold floor_eps; rewrite Rabs_right; lra).
  rewrite !(clamp_above 1) by (unfold floor_eps; rewrite Rabs_R1; lra).
  reflexivity.
Qed.

(** claim C2: a run of [evalAntenna] on an array whose first amplitude is
    [0.0005]: the call returns, and afterwards the caller's array holds
    the floor [1e-3] in that position, no longer the value passed in. *)
Theorem evalAntenna_overwrites_caller_array :
  contents store_small_amp x_small_amp =
    Some [0; 0; 0; 0; 0; 0.0005; 1; 1; 1; 1]%R /\
  exists g w',
    evalAntenna format_plain (hfss_answering (Ret [])) setup_ok 0
      x_small_amp None None store_small_amp = (Ret g, w') /\
    contents w' x_small_amp = Some [0; 0; 0; 0; 0; / 1000; 1; 1; 1; 1]%R /\
    contents w' x_small_amp <> contents store_small_amp x_small_amp.
Proof.
  split; [reflexivity|].
  pose proof small_amp_excitation as Hx.
  exists [], (excited format_plain store_small_amp x_small_amp small_amp_vector).
  rewrite (evalAntenna_excited _ _ _ _ _ _ _ _ _ Hx).
  split; [by apply (solve_and_score_unscored _ _ _ _ _ _ {| data_magnitude := Ret [] |}); auto|].
  rewrite (excited_array_floored _ _ _ _ _ _ Hx), small_amp_floored.
  split; [done|]. intros [= H]. lra.
Qed.

Lemma start_point_unfloored :
  floored (af_opt_phases_deg ++ af_opt_amps_v) =
  af_opt_phases_deg ++ af_opt_amps_v.
Proof.
  unfold floored, af_opt_phases_deg, af_opt_amps_v.
  cbn [take drop fmap list_fmap app].
  rewrite !clamp_above; [done|unfold floor_eps..].
  - rewrite Rabs_right; lra.
  - rewrite Rabs_left; lra.
  - rewrite Rabs_right; lra.
  - rewrite Rabs_left; lra.
  - rewrite Rabs_right; lra.
Qed.

(** claim C1: a run of the driver with a minimiser that returns the start
    point [phases ++ amplitudes]: the first component returned, the one
    the code names [optimized_amplitudes], shows the five phases, and the
    second, [optimized_phases], shows the five amplitudes. *)
Theorem optimizer_returns_phases_first :
  exists w',
    optimize_antenna_array format_plain minimize_once
      (hfss_answering (Ret [1%R])) setup_ok [1%R] 5 (World [] [] []) =
      (Ret (NdArray 0 0 5, NdArray 0 5 5, 0), w') /\
    contents w' (NdArray 0 0 10) = Some (af_opt_phases_deg ++ af_opt_amps_v) /\
    contents w' (NdArray 0 0 5) = Some af_opt_phases_deg /\
    contents w' (NdArray 0 5 5) = Some af_opt_amps_v /\
    af_opt_phases_deg <> af_opt_amps_v.
Proof.
  destruct (normalize_target_nonzero [1%R]) as (m & _ & _ & Hn).
  { apply Exists_cons_hd. lra. }
  set (v := af_opt_phases_deg ++ af_opt_amps_v).
  set (w2 := World [[]] [v] []).
  assert (Hx : excitation w2 (NdArray 0 0 10) v) by (split; reflexivity).
  set (t := (fun x => Rabs x / m)%R <$> [1%R]) in *.
  set (d := zip_with Rminus [1%R] t).
  set (w3 := set_lists (<[0 := [] ++ [np_linalg_norm d]]>
                          (lists (excited format_plain w2 (NdArray 0 0 10) v)))
                       (excited format_plain w2 (NdArray 0 0 10) v)).
  assert (Harr : arrays w3 = [v]).
  { unfold w3, set_lists, excited, w2. cbn [arrays lookup list_lookup].
    cbn [take drop insert list_insert app Nat.add].
    unfold v. rewrite start_point_unfloored. reflexivity. }
  exists w3. split.
  - unfold optimize_antenna_array. unfold bind at 1, lift at 1. rewrite Hn.
    fold t. unfold bind at 1, new_list at 1, set_lists at 1.
    unfold bind at 1, new_array at 1, set_arrays at 1.
    cbn [lists arrays variables length app]. fold v. fold w2.
    unfold bind at 1, minimize_once at 1. unfold bind at 1.
    erewrite (error_function_returns _ _ _ _ _ _ _ _ _
                {| data_magnitude := Ret [1%R] |} d []);
      [|done|by split|done|by apply np_sub_aligned].
    fold w3. reflexivity.
  - unfold contents. rewrite Harr. cbn [lookup list_lookup].
    repeat split; try reflexivity.
    unfold af_opt_phases_deg, af_opt_amps_v. intros [= H _]. lra.
Qed.

(** A session that answers twelve samples where ten were asked for:
    [evalAntenna] returns all twelve. *)
Lemma evaluate_length_counterexample :
  excitation store_small_amp x_small_amp small_amp_vector /\
  exists g w',
    evalAntenna format_plain (hfss_answering (Ret twelve_samples)) setup_ok 10
      x_small_amp None None store_small_amp = (Ret g, w') /\
    length g = 12 /\ length g <> 10.
Proof.
  pose proof small_amp_excitation as Hx. split; [done|].
  exists twelve_samples,
    (excited format_plain store_small_amp x_small_amp small_amp_vector).
  rewrite (evalAntenna_excited _ _ _ _ _ _ _ _ _ Hx).
  split; [|by split].
  by apply (solve_and_score_unscored _ _ _ _ _ _
              {| data_magnitude := Ret twelve_samples |}); auto.
Qed.

Lemma evaluate_length_witness :
  exists g w',
    evalAntenna format_plain (hfss_answering (Raise (SolverError "no far field")))
      setup_ok 10 x_small_amp None None store_small_amp = (Ret g, w') /\
    g = np_zeros 10 /\ length g = 10.
Proof.
  apply (evaluate_length format_plain
           (hfss_answering (Raise (SolverError "no far field"))) setup_ok 10
           x_small_amp store_small_amp small_amp_vector no_data).
  - split; reflexivity.
  - split; reflexivity.
Defined.

Lemma degraded_fallback_witness :
  (forall N_samples, exists w',
     evalAntenna format_plain (hfss_answering (Raise (SolverError "no far field")))
       setup_ok N_samples x_small_amp None None store_small_amp =
       (Ret (np_zeros N_samples), w') /\
     length (np_zeros N_samples) = N_samples /\
     Forall (fun g => g = 0%R) (np_zeros N_samples)) /\
  (forall ev tr tp, lists store_small_amp !! ev = Some tr -> exists w',
     error_function format_plain
       (hfss_answering (Raise (SolverError "no far field"))) setup_ok
       (length tp) ev tp x_small_amp store_small_amp =
       (Ret (np_linalg_norm tp), w')).
Proof.
  apply (degraded_fallback format_plain
           (hfss_answering (Raise (SolverError "no far field"))) setup_ok
           x_small_amp store_small_amp small_amp_vector no_data
           (SolverError "no far field")).
  - split; reflexivity.
  - split; reflexivity.
  - reflexivity.
Defined.

Lemma amplitude_floor_presented_witness :
  exists shown : list R,
    variables (evalAntenna format_plain (hfss_answering (Ret ten_samples))
                 setup_ok 10 x_small_amp None None store_small_amp).2 =
      variables store_small_amp ++
      excitation_commands format_plain (take 5 small_amp_vector) shown /\
    length shown = 5 /\
    forall i a, drop 5 small_amp_vector !! i = Some a ->
      ((Rabs a < floor_eps)%R -> shown !! i = Some floor_eps) /\
      ((floor_eps <= Rabs a)%R -> shown !! i = Some a).
Proof.
  apply (amplitude_floor_presented format_plain
           (hfss_answering (Ret ten_samples)) setup_ok 10 x_small_amp None None
           store_small_amp small_amp_vector).
  split; reflexivity.
Defined.

Lemma objective_is_l2_distance_witness :
  exists err w',
    error_function format_plain (hfss_answering (Ret ten_samples)) setup_ok
      (length ten_samples) 0 ten_samples x_small_amp store_small_amp =
      (Ret err, w') /\
    err = sqrt (sum_squares
                  (zip_with Rminus
                     (observed (length ten_samples)
                        {| data_magnitude := Ret ten_samples |})
                     ten_samples)) /\
    lists w' !! 0 = Some ([] ++ [err]).
Proof.
  apply (objective_is_l2_distance format_plain
           (hfss_answering (Ret ten_samples)) setup_ok x_small_amp
           store_small_amp small_amp_vector
           {| data_magnitude := Ret ten_samples |} 0 [] ten_samples).
  - split; reflexivity.
  - split; reflexivity.
  - reflexivity.
  - reflexivity.
Defined.

Lemma length_mismatch_is_fatal_witness :
  exists w',
    error_function format_plain (hfss_answering (Ret twelve_samples)) setup_ok
      (length ten_samples) 0 ten_samples x_small_amp store_small_amp =
      (Raise ValueError, w') /\
    lists w' !! 0 = Some [].
Proof.
  apply (length_mismatch_is_fatal format_plain
           (hfss_answering (Ret twelve_samples)) setup_ok x_small_amp
           store_small_amp small_amp_vector
           {| data_magnitude := Ret twelve_samples |} 0 [] ten_samples
           twelve_samples).
  - split; reflexivity.
  - split; reflexivity.
  - reflexivity.
  - reflexivity.
  - reflexivity.
  - reflexivity.
Defined.

Lemma trace_growth_witness :
  exists added,
    lists (call_each (error_function format_plain
                        (hfss_answering (Ret ten_samples)) setup_ok 10 0
                        ten_samples)
             [x_small_amp; x_small_amp] store_small_amp).2 !! 0 =
      Some ([] ++ added) /\
    match (call_each (error_function format_plain
                        (hfss_answering (Ret ten_samples)) setup_ok 10 0
                        ten_samples)
             [x_small_amp; x_small_amp] store_small_amp).1 with
    | Ret scores => added = scores /\ length added = 2
    | Raise _ => length added < 2
    end.
Proof.
  apply (trace_growth format_plain (hfss_answering (Ret ten_samples)) setup_ok
           10 0 ten_samples [x_small_amp; x_small_amp] store_small_amp []).
  - repeat constructor; try discriminate;
      exists small_amp_vector; split; reflexivity.
  - reflexivity.
  - apply surjective_pairing.
Defined.

Lemma normalized_target_in_unit_interval_witness :
  exists m t',
    np_max (np_abs [2; 0; -1]%R) = Ret m /\ (0 < m)%R /\
    normalize_target [2; 0; -1]%R = Ret t' /\
    t' = (fun x => Rabs x / m)%R <$> [2; 0; -1]%R /\
    Forall (fun y => (0 <= y <= 1)%R) t'.
Proof.
  apply (normalized_target_in_unit_interval [2; 0; -1]%R).
  apply Exists_cons_hd. lra.
Defined.

Lemma normalization_max_and_idempotence_witness :
  (exists t', normalize_target [2; 0; -1]%R = Ret t' /\
              np_max (np_abs t') = Ret 1%R) /\
  normalize_target [1; 0]%R = Ret [1; 0]%R.
Proof.
  destruct normalization_max_and_idempotence as [Hmax Hidem]. split.
  - apply Hmax. apply Exists_cons_hd. lra.
  - apply Hidem.
    + repeat constructor; lra.
    + simpl. f_equal. rewrite Rabs_R1, Rabs_R0. apply Rmax_left. lra.
Defined.

(** ** The further properties on concrete inputs *)

Lemma mismatch_is_fatal_witness :
  exists w',
    error_function format_plain (hfss_answering (Ret twelve_samples)) setup_ok
      (length ten_samples) 0 ten_samples x_small_amp store_small_amp =
      (Raise ValueError, w') /\
    lists w' !! 0 = Some [].
Proof.
  apply (mismatch_is_fatal format_plain
           (hfss_answering (Ret twelve_samples)) setup_ok x_small_amp
           store_small_amp small_amp_vector
           {| data_magnitude := Ret twelve_samples |} 0 [] ten_samples
           twelve_samples).
  - split; reflexivity.
  - split; reflexivity.
  - reflexivity.
  - reflexivity.
  - simpl. lia.
  - simpl. lia.
  - simpl. lia.
Defined.

Lemma single_sample_is_broadcast_witness :
  exists w',
    error_function format_plain (hfss_answering (Ret [1%R])) setup_ok
      (length ten_samples) 0 ten_samples x_small_amp store_small_amp =
      (Ret (sqrt (sum_squares ((fun y => 1 - y)%R <$> ten_samples))), w') /\
    lists w' !! 0 =
      Some ([] ++ [sqrt (sum_squares ((fun y => 1 - y)%R <$> ten_samples))]) /\
    (evalAntenna format_plain (hfss_answering (Ret [1%R])) setup_ok
       (length ten_samples) x_small_amp (Some 0) (Some ten_samples)
       store_small_amp).1 = Ret [1%R].
Proof.
  apply (single_sample_is_broadcast format_plain
           (hfss_answering (Ret [1%R])) setup_ok x_small_amp store_small_amp
           small_amp_vector {| data_magnitude := Ret [1%R] |} 0 [] ten_samples
           1%R).
  - split; reflexivity.
  - split; reflexivity.
  - reflexivity.
  - reflexivity.
  - simpl. lia.
Defined.

Lemma solver_failure_propagates_witness :
  evalAntenna format_plain (hfss_answering (Ret ten_samples)) setup_failing 10
    x_small_amp (Some 0) (Some ten_samples) store_small_amp =
    (Raise (SolverError "solve failed"),
     excited format_plain store_small_amp x_small_amp small_amp_vector) /\
  forall l tr, lists store_small_amp !! l = Some tr ->
    lists (excited format_plain store_small_amp x_small_amp small_amp_vector)
      !! l = Some tr.
Proof.
  apply (solver_failure_propagates format_plain
           (hfss_answering (Ret ten_samples)) setup_failing 10 x_small_amp
           (Some 0) (Some ten_samples) store_small_amp small_amp_vector
           (SolverError "solve failed")).
  - split; reflexivity.
  - left. reflexivity.
Defined.

Lemma fallback_needs_matching_count_witness :
  evalAntenna format_plain
    (hfss_answering (Raise (SolverError "no far field"))) setup_ok 12
    x_small_amp (Some 0) (Some ten_samples) store_small_amp =
  (Raise ValueError,
   excited format_plain store_small_amp x_small_amp small_amp_vector).
Proof.
  apply (fallback_needs_matching_count format_plain
           (hfss_answering (Raise (SolverError "no far field"))) setup_ok 12
           x_small_amp 0 ten_samples store_small_amp small_amp_vector no_data
           (SolverError "no far field")).
  - split; reflexivity.
  - split; reflexivity.
  - reflexivity.
  - simpl. lia.
  - lia.
  - simpl. lia.
Defined.

Lemma score_zero_iff_match_witness :
  exists err w',
    error_function format_plain (hfss_answering (Ret ten_samples)) setup_ok
      (length ten_samples) 0 ten_samples x_small_amp store_small_amp =
      (Ret err, w') /\
    (0 <= err)%R /\
    (err = 0%R <->
     observed (length ten_samples) {| data_magnitude := Ret ten_samples |}
     = ten_samples).
Proof.
  apply (score_zero_iff_match format_plain
           (hfss_answering (Ret ten_samples)) setup_ok x_small_amp
           store_small_amp small_amp_vector
           {| data_magnitude := Ret ten_samples |} 0 [] ten_samples).
  - split; reflexivity.
  - split; reflexivity.
  - reflexivity.
  - reflexivity.
Defined.

Lemma repeated_call_same_assignments_witness :
  let hfss := hfss_answering (Ret ten_samples) in
  let cmds := excitation_commands format_plain (take 5 small_amp_vector)
                (clamp <$> drop 5 small_amp_vector) in
  let w1 := (evalAntenna format_plain hfss setup_ok 10 x_small_amp None None
               store_small_amp).2 in
  let w2 := (evalAntenna format_plain hfss setup_ok 10 x_small_amp None None
               w1).2 in
  variables w1 = variables store_small_amp ++ cmds /\
  variables w2 = (variables store_small_amp ++ cmds) ++ cmds /\
  contents w2 x_small_amp = contents w1 x_small_amp.
Proof.
  apply (repeated_call_same_assignments format_plain
           (hfss_answering (Ret ten_samples)) setup_ok 10 x_small_amp None None
           store_small_amp small_amp_vector).
  - split; reflexivity.
  - intros l. discriminate.
Defined.


Lemma short_vector_raises_witness :
  exists w',
    evalAntenna format_plain (hfss_answering (Ret ten_samples)) setup_ok 10
      (NdArray 0 0 7) None None store_short = (Raise IndexError, w') /\
    length (variables w') =
      length (variables store_short) + 2 * (length short_vector - 5).
Proof.
  apply (short_vector_raises format_plain (hfss_answering (Ret ten_samples))
           setup_ok 10 (NdArray 0 0 7) None None store_short short_vector).
  - reflexivity.
  - simpl. lia.
Defined.

Lemma long_vector_tail_ignored_witness :
  exists w1,
    evalAntenna format_plain (hfss_answering (Ret ten_samples)) setup_ok 10
      (NdArray 0 0 12) None None store_long =
      solve_and_score (hfss_answering (Ret ten_samples)) setup_ok 10 None None
        w1 /\
    variables w1 =
      variables store_long ++
      excitation_commands format_plain (take 5 long_vector)
        (clamp <$> take 5 (drop 5 long_vector)).
Proof.
  apply (long_vector_tail_ignored format_plain
           (hfss_answering (Ret ten_samples)) setup_ok 10 (NdArray 0 0 12)
           None None store_long long_vector).
  - reflexivity.
  - simpl. lia.
Defined.

Lemma list_argument_is_kept_witness :
  contents (evalAntenna format_plain (hfss_answering (Ret ten_samples))
              setup_ok 10 (PyList 0) (Some 1) (Some ten_samples)
              store_list).2 (PyList 0) = Some small_amp_vector.
Proof.
  apply (list_argument_is_kept format_plain (hfss_answering (Ret ten_samples))
           setup_ok 10 0 (Some 1) (Some ten_samples) store_list
           small_amp_vector).
  - split; reflexivity.
  - discriminate.
Defined.

Lemma array_argument_is_floored_witness :
  exists v',
    contents (evalAntenna format_plain (hfss_answering (Ret ten_samples))
                setup_ok 10 (NdArray 0 0 10) None None store_small_amp).2
      (NdArray 0 0 10) = Some v' /\
    take 5 v' = take 5 small_amp_vector /\ length v' = 10 /\
    forall i a, drop 5 small_amp_vector !! i = Some a ->
      ((Rabs a < floor_eps)%R -> drop 5 v' !! i = Some floor_eps) /\
      ((floor_eps <= Rabs a)%R -> drop 5 v' !! i = Some a).
Proof.
  apply (array_argument_is_floored format_plain
           (hfss_answering (Ret ten_samples)) setup_ok 10 0 0 10 None None
           store_small_amp small_amp_vector).
  split; reflexivity.
Defined.

Lemma normalize_unit : normalize_target [1%R] = Ret [1%R].
Proof.
  unfold normalize_target. simpl.
  destruct (Req_dec_T (Rabs 1) 0) as [H|_].
  - rewrite Rabs_R1 in H. lra.
  - f_equal. f_equal. rewrite Rabs_R1. field.
Qed.

Lemma driver_returns_views_witness :
  let v := af_opt_phases_deg ++ af_opt_amps_v in
  let w3 := World [[]] [v] [] in
  optimize_antenna_array format_plain minimize_none
    (hfss_answering (Ret [1%R])) setup_ok [1%R] 5 (World [] [] []) =
    (Ret (NdArray 0 0 5, NdArray 0 (0 + 5) 5, 0), w3) /\
  contents w3 (NdArray 0 0 5) = Some (take 5 v) /\
  contents w3 (NdArray 0 (0 + 5) 5) = Some (drop 5 v).
Proof.
  apply (driver_returns_views format_plain minimize_none
           (hfss_answering (Ret [1%R])) setup_ok [1%R] [1%R] 5 (World [] [] [])
           0 0 10 (World [[]] [af_opt_phases_deg ++ af_opt_amps_v] [])
           (af_opt_phases_deg ++ af_opt_amps_v)).
  - exact normalize_unit.
  - reflexivity.
  - split; reflexivity.
Defined.

Lemma kill_strikes_exactly_witness :
  exists lines s',
    Host.kill_aedt_processes (machine_with process_table "arrayY5") host_clean
      = (Host.Ok tt, s') /\
    Host.killed_pids s' =
      Host.killed_pids host_clean ++
      (Host.pid <$> filter (fun p => struck p = true) process_table) /\
    Host.console s' =
      Host.console host_clean ++ lines ++
      (if existsb struck process_table then []
       else ["Starting AEDT processes."]) /\
    length lines = length (filter (fun p => struck p = true) process_table) /\
    Forall (fun line => exists rest, line = "Killed process: " +:+ rest) lines /\
    Host.files s' = Host.files host_clean /\
    Host.open_desktops s' = Host.open_desktops host_clean.
Proof.
  apply (kill_strikes_exactly (machine_with process_table "arrayY5")
           host_clean).
  repeat constructor; by eexists.
Defined.

Lemma unreadable_name_aborts_witness :
  exists s',
    Host.kill_aedt_processes
      (machine_with process_table_unreadable "arrayY5") host_clean =
      (Host.Err Host.AttributeError, s') /\
    Host.initHFSSsetup
      (machine_with process_table_unreadable "arrayY5") host_clean =
      (Host.Err Host.AttributeError, s') /\
    Host.killed_pids s' =
      Host.killed_pids host_clean ++
      (Host.pid <$> filter (fun p => struck p = true)
                      [Host.Process 11 (Some "AnsysEDT.exe") Host.Dies]) /\
    Host.files s' = Host.files host_clean /\
    Host.open_desktops s' = Host.open_desktops host_clean.
Proof.
  apply (unreadable_name_aborts
           (machine_with process_table_unreadable "arrayY5") host_clean
           [Host.Process 11 (Some "AnsysEDT.exe") Host.Dies]
           (Host.Process 12 None Host.Dies)
           [Host.Process 13 (Some "ansysedt.exe") Host.Dies]).
  - reflexivity.
  - repeat constructor; by eexists.
  - reflexivity.
Defined.


Lemma lock_removal_failures_witness :
  let m := machine_with process_table "arrayY5" in
  ((Host.files (host_locked Host.Denied) !! Host.lock_file_path
    = Some Host.Denied ->
    (Host.initHFSSsetup m (host_locked Host.Denied)).1 =
      Host.Err (Host.PermissionError
        "Cannot remove lock file 'aedt\1D_Dipole_array_model_all.aedt.lock'. Close AEDT or check file permissions.")) /\
   (forall what,
      Host.files (host_locked Host.Denied) !! Host.lock_file_path
      = Some (Host.Failing what) ->
      (Host.initHFSSsetup m (host_locked Host.Denied)).1 =
        Host.Err (Host.Exception
          ("Failed to remove lock file 'aedt\1D_Dipole_array_model_all.aedt.lock': "
           +:+ what))) /\
   (Host.files (host_locked Host.Denied) !! Host.lock_file_path <> None ->
    Host.files (host_locked Host.Denied) !! Host.lock_file_path
    <> Some Host.Removable ->
    Host.files (Host.initHFSSsetup m (host_locked Host.Denied)).2
    = Host.files (host_locked Host.Denied) /\
    Host.open_desktops (Host.initHFSSsetup m (host_locked Host.Denied)).2
    = Host.open_desktops (host_locked Host.Denied))).
Proof.
  apply (lock_removal_failures (machine_with process_table "arrayY5")
           (host_locked Host.Denied)).
  repeat constructor; by eexists.
Defined.

Lemma design_check_after_launch_witness :
  let m := machine_with process_table "arrayX3" in
  Host.open_desktops (Host.initHFSSsetup m host_clean).2
  = S (Host.open_desktops host_clean) /\
  ("arrayX3" <> "arrayY5" ->
   (Host.initHFSSsetup m host_clean).1 =
     Host.Err (Host.ValueError
       "Design 'arrayY5' not found in project '1D_Dipole_array_model_all'.")) /\
  ("arrayX3" = "arrayY5" ->
   (Host.initHFSSsetup m host_clean).1 =
     Host.Ok (Host.session (desktop_named "arrayX3"),
              Host.get_setup (desktop_named "arrayX3") "Setup1")).
Proof.
  apply (design_check_after_launch (machine_with process_table "arrayX3")
           host_clean (desktop_named "arrayX3")).
  - repeat constructor; by eexists.
  - left. reflexivity.
  - reflexivity.
Defined.

Lemma desktop_released_only_on_success_witness :
  let run := main format_plain minimize_none
               (machine_with process_table "arrayY5") host_clean
               (World [] [] []) in
  Host.open_desktops run.1.2 =
  match run.1.1 with
  | Host.Ok _ => Host.open_desktops host_clean
  | Host.Err (Host.Core _) | Host.Err (Host.ValueError _) =>
      S (Host.open_desktops host_clean)
  | Host.Err _ => Host.open_desktops host_clean
  end.
Proof.
  intros run.
  apply (desktop_released_only_on_success format_plain minimize_none
           (machine_with process_table "arrayY5") host_clean (World [] [] [])
           run.1.1 run.1.2 run.2).
  unfold run. by destruct (main _ _ _ _ _) as [[? ?] ?].
Defined.

Lemma band_target_has_signal :
  Exists (fun x => x <> 0%R) (band_target (np_linspace (-90) 90 37)).
Proof.
  apply Exists_exists. exists 2%R. split; [|lra].
  apply list_elem_of_fmap. exists 0%R. split.
  - destruct (Rle_dec (-45) 0); [|lra]. destruct (Rle_dec 0 45); [done|lra].
  - apply list_elem_of_fmap. exists 18. split.
    + replace (INR 18) with 18%R by (simpl; lra).
      replace (INR (37 - 1)) with 36%R by (simpl; lra). lra.
    + apply elem_of_seq. lia.
Qed.

Lemma closing_evaluation_swaps_halves_witness :
  let v := af_opt_phases_deg ++ af_opt_amps_v in
  let w3 := World [[]] [v] [] in
  exists r h' w',
    main format_plain minimize_none (machine_with [] "arrayY5") host_clean
      (World [] [] []) = (r, h', w') /\
    variables w' =
      variables w3 ++
      excitation_commands format_plain (drop 5 v) (clamp <$> take 5 v) /\
    contents w' (NdArray 0 0 10) = Some v.
Proof.
  destruct (normalize_target_nonzero _ band_target_has_signal)
    as (mx & _ & _ & Hn).
  eapply (closing_evaluation_swaps_halves format_plain minimize_none
            (machine_with [] "arrayY5") host_clean (World [] [] [])
            (hfss_answering (Ret ten_samples)) setup_ok _ _ 0 0 10
            (World [[]] [af_opt_phases_deg ++ af_opt_amps_v] [])
            (af_opt_phases_deg ++ af_opt_amps_v)).
  - lazy. reflexivity.
  - exact Hn.
  - reflexivity.
  - split; reflexivity.
Defined.
